(** * The deployment orchestrator (scripts/deploy.sh), as a shallow embedding

    The orchestrator is a bash script run under [set -e].  It talks to the
    outside world only by running external commands (the AWS CLI, Docker,
    curl) and by printing to the terminal.  The embedding keeps that shape:

    - an external command is a value of [Cmd]; the world answers it with an
      exit status and the text written to stdout and stderr ([Resp]);
    - the world is an oracle that may depend on every command issued so far,
      so that stateful control planes and flaky endpoints are covered;
    - the shell is a state monad with early exit: the state records the one
      shell variable that outlives a function ([AWS_ACCOUNT_ID]), the
      commands issued in order and the lines printed; [exit n] and a failing
      simple command under [set -e] both end the run with a status. *)

From Stdlib Require Import String Ascii List Bool Arith Lia DecimalString.
Import ListNotations.
Open Scope string_scope.

(** ** Text as bash sees it *)

Module Text.

Definition is_newline (c : ascii) : bool := Ascii.eqb c "010"%char.

(** [[ -z "$x" ]] *)
Definition is_empty (s : string) : bool :=
  match s with EmptyString => true | String _ _ => false end.

(** Command substitution [$(...)] removes every trailing newline. *)
Fixpoint strip_trailing_newlines (s : string) : string :=
  match s with
  | EmptyString => EmptyString
  | String c rest =>
      match strip_trailing_newlines rest with
      | EmptyString => if is_newline c then EmptyString else String c EmptyString
      | String _ _ as r => String c r
      end
  end.

(** [[ $hay == *"needle"* ]]: the quoted needle occurs somewhere in hay. *)
Fixpoint contains (needle hay : string) : bool :=
  String.prefix needle hay
  || match hay with
     | EmptyString => false
     | String _ rest => contains needle rest
     end.

(** What [echo $?] prints for a status, without the newline. *)
Definition decimal (n : nat) : string := NilEmpty.string_of_uint (Nat.to_uint n).

(** The last character of a text, if it has one. *)
Fixpoint last_char (s : string) : option ascii :=
  match s with
  | EmptyString => None
  | String c EmptyString => Some c
  | String _ rest => last_char rest
  end.

Definition newline : string := String "010"%char EmptyString.

(** A needle that ends in something other than a newline. *)
Definition ends_in_text (m : string) : bool :=
  match last_char m with
  | Some c => negb (is_newline c)
  | None => false
  end.

End Text.
Import Text.

(** ** External commands *)

(** The arguments of [aws cloudformation create-stack] and [update-stack]. *)
Record StackRequest := {
  req_stack_name : string;
  req_template_body : string;
  req_parameters : list (string * string);
  req_capabilities : string;
  req_region : string
}.

(** One constructor per external command line of the script; the arguments
    are the expanded words that vary (the script leaves most expansions
    unquoted; a value is kept as one argument here, and what a command makes
    of an empty or split value is up to the world).  [cd] is a builtin, but
    it can fail like a command and [set -e] applies to it, so it is answered
    by the world as well, and so is [sleep]. *)
Inductive Cmd :=
| aws_sts_get_caller_identity
| aws_ecr_describe_repositories (name region : string)
| aws_ecr_create_repository (name region : string)
| aws_ecr_get_login_password (region : string)
| docker_login (password_stdin registry : string)
| cd (dir : string)
| docker_build (tag : string)
| docker_tag (source target : string)
| docker_push (image : string)
| aws_cloudformation_describe_stacks (stack region : string) (query : option string)
| aws_cloudformation_update_stack (req : StackRequest)
| aws_cloudformation_create_stack (req : StackRequest)
| aws_cloudformation_wait (condition stack region : string)
| aws_ecs_update_service (cluster service region : string)
| sleep (seconds : nat)
| curl_s_f (url : string).

Record Resp := { rc : nat; stdout : string; stderr : string }.

(** The outside world: which tools [command -v] finds, and the answer to a
    command given the commands issued before it (oldest first). *)
Record World := {
  installed : string -> bool;
  respond : list Cmd -> Cmd -> Resp
}.

(** The environment variables the script reads; [None] is unset. *)
Record Environ := {
  env_ENVIRONMENT : option string;
  env_AWS_REGION : option string;
  env_ECR_REPOSITORY_PREFIX : option string;
  env_DATABASE_PASSWORD : option string;
  env_AWS_ACCOUNT_ID : option string
}.

(** [${VAR:-default}]: the default when VAR is unset or empty. *)
Definition or_default (v : option string) (default : string) : string :=
  match v with
  | None => default
  | Some s => if is_empty s then default else s
  end.

(** [$VAR] with VAR possibly unset (the script does not use [set -u]). *)
Definition expand (v : option string) : string :=
  match v with None => EmptyString | Some s => s end.

(** ** The shell *)

Inductive Line :=
| Info (msg : string)        (* print_status  *)
| Warning (msg : string)     (* print_warning *)
| Error (msg : string)       (* print_error   *)
| Echo (msg : string)        (* echo          *)
| CmdOut (text : string)     (* stdout of a command that reaches the terminal *)
| CmdErr (text : string).    (* stderr of a command that reaches the terminal *)

Record Shell := {
  AWS_ACCOUNT_ID : string;
  trace : list Cmd;
  terminal : list Line
}.

Inductive Outcome (A : Type) :=
| Done (a : A)
| Exited (status : nat).
Arguments Done {A} a.
Arguments Exited {A} status.

Definition Sh (A : Type) : Type := Shell -> Outcome A * Shell.

Definition ret {A} (a : A) : Sh A := fun s => (Done a, s).

Definition bind {A B} (m : Sh A) (k : A -> Sh B) : Sh B :=
  fun s =>
    match m s with
    | (Done a, s') => k a s'
    | (Exited n, s') => (Exited n, s')
    end.

Definition exit {A} (n : nat) : Sh A := fun s => (Exited n, s).

Declare Scope sh_scope.
Delimit Scope sh_scope with sh.
Notation "x <- m ;; k" := (bind m (fun x => k))
  (at level 61, m at next level, right associativity) : sh_scope.
Notation "m ;; k" := (bind m (fun _ => k))
  (at level 61, right associativity) : sh_scope.
Open Scope sh_scope.

(** The status the process ends with: that of [exit], of the command that
    tripped [set -e], or 0 when the script runs to its end (the last command
    of every subcommand is a print). *)
Definition exit_status {A} (o : Outcome A) : nat :=
  match o with Done _ => 0 | Exited n => n end.

Definition say (l : Line) : Sh unit :=
  fun s => (Done tt, {| AWS_ACCOUNT_ID := AWS_ACCOUNT_ID s;
                        trace := trace s;
                        terminal := terminal s ++ [l] |}).

Definition print_status (msg : string) : Sh unit := say (Info msg).
Definition print_warning (msg : string) : Sh unit := say (Warning msg).
Definition print_error (msg : string) : Sh unit := say (Error msg).
Definition echo (msg : string) : Sh unit := say (Echo msg).

Definition get_AWS_ACCOUNT_ID : Sh string := fun s => (Done (AWS_ACCOUNT_ID s), s).

Definition set_AWS_ACCOUNT_ID (v : string) : Sh unit :=
  fun s => (Done tt, {| AWS_ACCOUNT_ID := v; trace := trace s; terminal := terminal s |}).

Section Script.

Variable w : World.
Variable env : Environ.
Variable argv0 : string.

(** Running a command: the world answers from the history, the command is
    appended to the history. *)
Definition issue (c : Cmd) : Sh Resp :=
  fun s => (Done (respond w (trace s) c),
            {| AWS_ACCOUNT_ID := AWS_ACCOUNT_ID s;
               trace := trace s ++ [c];
               terminal := terminal s |}).

(** [set -e]: a failing simple command ends the script with its status. *)
Definition errexit (r : Resp) : Sh unit :=
  if Nat.eqb (rc r) 0 then ret tt else exit (rc r).

(** [cmd] as a statement of its own. *)
Definition run (c : Cmd) : Sh unit :=
  r <- issue c ;;
  say (CmdOut (stdout r)) ;;
  say (CmdErr (stderr r)) ;;
  errexit r.

(** [VAR=$(cmd)]: stdout is captured, stderr reaches the terminal, and the
    assignment has the status of the command, so [set -e] applies. *)
Definition capture (c : Cmd) : Sh string :=
  r <- issue c ;;
  say (CmdErr (stderr r)) ;;
  errexit r ;;
  ret (strip_trailing_newlines (stdout r)).

(** [VAR=$(cmd 2>&1 || echo $?)]: both streams are captured, the status is
    appended when the command fails, and the assignment cannot fail. *)
Definition captured_text (r : Resp) : string :=
  strip_trailing_newlines
    (stdout r ++ stderr r ++
     (if Nat.eqb (rc r) 0 then EmptyString else decimal (rc r) ++ newline)).

Definition capture_all_or_status (c : Cmd) : Sh string :=
  r <- issue c ;;
  ret (captured_text r).

(** [if cmd &> /dev/null]: only the status is looked at. *)
Definition succeeds_quietly (c : Cmd) : Sh bool :=
  r <- issue c ;;
  ret (Nat.eqb (rc r) 0).

(** [if curl -s -f url > /dev/null]: stdout is dropped, stderr is not
    redirected, only the status is looked at. *)
Definition succeeds_discarding_stdout (c : Cmd) : Sh bool :=
  r <- issue c ;;
  say (CmdErr (stderr r)) ;;
  ret (Nat.eqb (rc r) 0).

(** [c1 || c2] as a statement: c2 runs only when c1 fails, and [set -e]
    looks at c2 only. *)
Definition or_else (c1 c2 : Cmd) : Sh unit :=
  r <- issue c1 ;;
  say (CmdOut (stdout r)) ;;
  say (CmdErr (stderr r)) ;;
  if Nat.eqb (rc r) 0 then ret tt else run c2.

(** [c1 | c2 <stdin>] without pipefail: the status is that of c2, which
    reads what c1 wrote. *)
Definition pipe (c1 : Cmd) (c2 : string -> Cmd) : Sh unit :=
  r <- issue c1 ;;
  say (CmdErr (stderr r)) ;;
  run (c2 (stdout r)).

(** *** Configuration (lines 14-19) *)

Definition STACK_NAME : string := "blog-app-stack".
Definition ENVIRONMENT : string := or_default (env_ENVIRONMENT env) "production".
Definition AWS_REGION : string := or_default (env_AWS_REGION env) "us-east-1".
Definition ECR_REPOSITORY_PREFIX : string := or_default (env_ECR_REPOSITORY_PREFIX env) "blog".
Definition DATABASE_PASSWORD : string := or_default (env_DATABASE_PASSWORD env) EmptyString.

(** *** check_prerequisites (lines 35-68) *)

Definition check_prerequisites : Sh unit :=
  print_status "Checking prerequisites..." ;;
  (if negb (installed w "aws") then
     print_error "AWS CLI is not installed. Please install it first." ;;
     exit 1
   else ret tt) ;;
  (if negb (installed w "docker") then
     print_error "Docker is not installed. Please install it first." ;;
     exit 1
   else ret tt) ;;
  (if is_empty DATABASE_PASSWORD then
     print_error "DATABASE_PASSWORD environment variable is not set." ;;
     exit 1
   else ret tt) ;;
  account <- get_AWS_ACCOUNT_ID ;;
  (if is_empty account then
     print_status "AWS_ACCOUNT_ID not set. Attempting to retrieve from AWS CLI..." ;;
     id <- capture aws_sts_get_caller_identity ;;
     set_AWS_ACCOUNT_ID id ;;
     (if is_empty id then
        print_error "Could not retrieve AWS account ID. Please set AWS_ACCOUNT_ID environment variable." ;;
        exit 1
      else ret tt) ;;
     print_status ("AWS account ID: " ++ id)
   else ret tt) ;;
  print_status "Prerequisites check passed.".

(** *** build_and_push_images (lines 71-109) *)

Definition registry (account : string) : string :=
  account ++ ".dkr.ecr." ++ AWS_REGION ++ ".amazonaws.com".

Definition build_and_push_images : Sh unit :=
  print_status "Building and pushing Docker images..." ;;
  print_status "Creating ECR repositories if they don't exist..." ;;
  or_else (aws_ecr_describe_repositories "blog-backend" AWS_REGION)
          (aws_ecr_create_repository "blog-backend" AWS_REGION) ;;
  or_else (aws_ecr_describe_repositories "blog-frontend" AWS_REGION)
          (aws_ecr_create_repository "blog-frontend" AWS_REGION) ;;
  print_status "Logging in to ECR..." ;;
  account <- get_AWS_ACCOUNT_ID ;;
  pipe (aws_ecr_get_login_password AWS_REGION)
       (fun password => docker_login password (registry account)) ;;
  print_status "Building backend image..." ;;
  run (cd "backend") ;;
  run (docker_build "backend:latest") ;;
  run (cd "..") ;;
  print_status "Building frontend image..." ;;
  run (cd "frontend") ;;
  run (docker_build "frontend:latest") ;;
  run (cd "..") ;;
  print_status "Tagging and pushing backend image..." ;;
  run (docker_tag "backend:latest" (registry account ++ "/blog-backend:latest")) ;;
  run (docker_push (registry account ++ "/blog-backend:latest")) ;;
  print_status "Tagging and pushing frontend image..." ;;
  run (docker_tag "frontend:latest" (registry account ++ "/blog-frontend:latest")) ;;
  run (docker_push (registry account ++ "/blog-frontend:latest")) ;;
  print_status "Docker images built and pushed successfully.".

(** *** deploy_infrastructure (lines 112-163) *)

Definition stack_request (account : string) : StackRequest :=
  {| req_stack_name := STACK_NAME;
     req_template_body := "file://infrastructure/cloudformation/main.yaml";
     req_parameters :=
       [ ("Environment", ENVIRONMENT);
         ("DatabasePassword", DATABASE_PASSWORD);
         ("BackendRepositoryUri", registry account ++ "/blog-backend");
         ("FrontendRepositoryUri", registry account ++ "/blog-frontend") ];
     req_capabilities := "CAPABILITY_IAM";
     req_region := AWS_REGION |}.

Definition no_updates_marker : string := "No updates are to be performed".
Definition error_marker : string := "error".

Definition describe_stack : Cmd :=
  aws_cloudformation_describe_stacks STACK_NAME AWS_REGION None.

Definition deploy_infrastructure : Sh unit :=
  print_status "Deploying infrastructure using CloudFormation..." ;;
  account <- get_AWS_ACCOUNT_ID ;;
  stack_exists <- succeeds_quietly describe_stack ;;
  (if stack_exists : bool then
     print_status "Stack exists. Updating..." ;;
     CLOUDFORMATION_ERROR <-
       capture_all_or_status (aws_cloudformation_update_stack (stack_request account)) ;;
     if contains no_updates_marker CLOUDFORMATION_ERROR then
       print_status "No updates are to be performed on the stack."
     else if contains error_marker CLOUDFORMATION_ERROR then
       print_error ("Failed to update CloudFormation stack: " ++ CLOUDFORMATION_ERROR) ;;
       exit 1
     else
       print_status "Waiting for stack update to complete..." ;;
       run (aws_cloudformation_wait "stack-update-complete" STACK_NAME AWS_REGION)
   else
     print_status "Stack does not exist. Creating..." ;;
     run (aws_cloudformation_create_stack (stack_request account)) ;;
     print_status "Waiting for stack creation to complete..." ;;
     run (aws_cloudformation_wait "stack-create-complete" STACK_NAME AWS_REGION)) ;;
  print_status "Infrastructure deployment completed.".

(** *** deploy_application (lines 166-202) *)

Definition stack_output (key : string) : Cmd :=
  aws_cloudformation_describe_stacks STACK_NAME AWS_REGION
    (Some ("Stacks[0].Outputs[?OutputKey==`" ++ key ++ "`].OutputValue")).

Definition deploy_application : Sh unit :=
  print_status "Deploying application..." ;;
  CLUSTER_NAME <- capture (stack_output "ECSClusterName") ;;
  BACKEND_SERVICE <- capture (stack_output "BackendServiceName") ;;
  FRONTEND_SERVICE <- capture (stack_output "FrontendServiceName") ;;
  run (aws_ecs_update_service CLUSTER_NAME BACKEND_SERVICE AWS_REGION) ;;
  run (aws_ecs_update_service CLUSTER_NAME FRONTEND_SERVICE AWS_REGION) ;;
  print_status "Application deployment completed.".

(** *** get_deployment_info (lines 205-225) *)

Definition get_deployment_info : Sh unit :=
  print_status "Getting deployment information..." ;;
  ALB_DNS <- capture (stack_output "ALBDNSName") ;;
  echo EmptyString ;;
  echo "==========================================" ;;
  echo "DEPLOYMENT COMPLETED SUCCESSFULLY" ;;
  echo "==========================================" ;;
  echo ("Application URL: http://" ++ ALB_DNS) ;;
  echo ("API Documentation: http://" ++ ALB_DNS ++ "/docs") ;;
  echo ("Environment: " ++ ENVIRONMENT) ;;
  echo ("Region: " ++ AWS_REGION) ;;
  echo "==========================================" ;;
  echo EmptyString.

(** *** run_health_checks (lines 228-257) *)

Definition frontend_health_url (alb : string) : string := "http://" ++ alb ++ "/health".
Definition backend_health_url (alb : string) : string := "http://" ++ alb ++ "/api/health".

Definition run_health_checks : Sh unit :=
  print_status "Running health checks..." ;;
  ALB_DNS <- capture (stack_output "ALBDNSName") ;;
  print_status "Waiting for services to be ready (2 minutes)..." ;;
  run (sleep 120) ;;
  print_status "Checking frontend health..." ;;
  frontend_ok <- succeeds_discarding_stdout (curl_s_f (frontend_health_url ALB_DNS)) ;;
  (if frontend_ok : bool then
     print_status "Frontend health check passed."
   else
     print_warning "Frontend health check failed. The application might still be starting up.") ;;
  print_status "Checking backend health..." ;;
  backend_ok <- succeeds_discarding_stdout (curl_s_f (backend_health_url ALB_DNS)) ;;
  (if backend_ok : bool then
     print_status "Backend health check passed."
   else
     print_warning "Backend health check failed. The API might still be starting up.").

(** *** main (lines 260-271) *)

Definition main : Sh unit :=
  print_status "Starting deployment process..." ;;
  check_prerequisites ;;
  build_and_push_images ;;
  deploy_infrastructure ;;
  deploy_application ;;
  run_health_checks ;;
  get_deployment_info ;;
  print_status "Deployment completed successfully!".

(** *** Argument handling (lines 274-310) *)

Definition usage : Sh unit :=
  echo ("Usage: " ++ argv0 ++ " {deploy|build|infrastructure|application|health|info}") ;;
  echo EmptyString ;;
  echo "Commands:" ;;
  echo "  deploy         - Full deployment (default)" ;;
  echo "  build          - Build and push Docker images only" ;;
  echo "  infrastructure - Deploy infrastructure only" ;;
  echo "  application    - Deploy application only" ;;
  echo "  health         - Run health checks" ;;
  echo "  info           - Show deployment information" ;;
  exit 1.

(** [${1:-deploy}] *)
Definition subcommand (args : list string) : string :=
  or_default (nth_error args 0) "deploy".

Definition dispatch (args : list string) : Sh unit :=
  let sub := subcommand args in
  if String.eqb sub "deploy" then main
  else if String.eqb sub "build" then check_prerequisites ;; build_and_push_images
  else if String.eqb sub "infrastructure" then check_prerequisites ;; deploy_infrastructure
  else if String.eqb sub "application" then check_prerequisites ;; deploy_application
  else if String.eqb sub "health" then check_prerequisites ;; run_health_checks
  else if String.eqb sub "info" then check_prerequisites ;; get_deployment_info
  else usage.

(** The shell as the script body finds it. *)
Definition initial : Shell :=
  {| AWS_ACCOUNT_ID := expand (env_AWS_ACCOUNT_ID env);
     trace := [];
     terminal := [] |}.

(** The whole script: outcome, commands issued, lines printed. *)
Definition deploy_sh (args : list string) : Outcome unit * Shell :=
  dispatch args initial.

End Script.

(** ** Properties of a run that the statements below talk about *)

(** The text a command wrote, both streams. *)
Definition said (r : Resp) : string := stdout r ++ stderr r.

Definition is_error_line (l : Line) : bool :=
  match l with Error _ => true | _ => false end.

Definition line_text (l : Line) : string :=
  match l with
  | Info m | Warning m | Error m | Echo m | CmdOut m | CmdErr m => m
  end.

Definition is_stack_submission (c : Cmd) : bool :=
  match c with
  | aws_cloudformation_update_stack _ | aws_cloudformation_create_stack _ => true
  | _ => false
  end.

Definition is_update_service (c : Cmd) : bool :=
  match c with aws_ecs_update_service _ _ _ => true | _ => false end.

Definition is_curl (c : Cmd) : bool :=
  match c with curl_s_f _ => true | _ => false end.


(** The requests that change something outside: registry, stack, services. *)
Definition mutates (c : Cmd) : bool :=
  match c with
  | aws_ecr_create_repository _ _
  | docker_push _
  | aws_cloudformation_update_stack _
  | aws_cloudformation_create_stack _
  | aws_ecs_update_service _ _ _ => true
  | _ => false
  end.

(** The stages of [main] up to and including the rollout. *)
Definition stages_through_rollout (w : World) (env : Environ) : Sh unit :=
  print_status "Starting deployment process..." ;;
  check_prerequisites w env ;;
  build_and_push_images w env ;;
  deploy_infrastructure w env ;;
  deploy_application w env.

(** The stages of [main] up to and including stack convergence. *)
Definition stages_through_convergence (w : World) (env : Environ) : Sh unit :=
  print_status "Starting deployment process..." ;;
  check_prerequisites w env ;;
  build_and_push_images w env ;;
  deploy_infrastructure w env.

(** The three output lookups of [deploy_application] succeed and give
    these names, whenever they are made. *)
Definition outputs_resolve (w : World) (env : Environ)
    (cluster backend frontend : string) : Prop :=
  forall h,
    (rc (respond w h (stack_output env "ECSClusterName")) = 0 /\
     strip_trailing_newlines (stdout (respond w h (stack_output env "ECSClusterName"))) = cluster) /\
    (rc (respond w h (stack_output env "BackendServiceName")) = 0 /\
     strip_trailing_newlines (stdout (respond w h (stack_output env "BackendServiceName"))) = backend) /\
    (rc (respond w h (stack_output env "FrontendServiceName")) = 0 /\
     strip_trailing_newlines (stdout (respond w h (stack_output env "FrontendServiceName"))) = frontend).

(** Two worlds that differ at most in what the health endpoints answer. *)
Definition same_but_health (w w' : World) : Prop :=
  (forall tool, installed w tool = installed w' tool) /\
  (forall h c, is_curl c = false -> respond w h c = respond w' h c).

(** What the build stage issues for one repository, from a history. *)
Definition repository_setup (w : World) (region name : string) (h : list Cmd) : list Cmd :=
  aws_ecr_describe_repositories name region ::
  (if Nat.eqb (rc (respond w h (aws_ecr_describe_repositories name region))) 0
   then []
   else [aws_ecr_create_repository name region]).

(** What the build stage issues once the repositories are there. *)
Definition login_build_push (env : Environ) (account token : string) : list Cmd :=
  [ aws_ecr_get_login_password (AWS_REGION env);
    docker_login token (registry env account);
    cd "backend"; docker_build "backend:latest"; cd "..";
    cd "frontend"; docker_build "frontend:latest"; cd "..";
    docker_tag "backend:latest" (registry env account ++ "/blog-backend:latest");
    docker_push (registry env account ++ "/blog-backend:latest");
    docker_tag "frontend:latest" (registry env account ++ "/blog-frontend:latest");
    docker_push (registry env account ++ "/blog-frontend:latest") ].

(** The commands of the build stage that [set -e] looks at.  The status of
    [describe-repositories] is consumed by [||], that of
    [get-login-password] is lost in the pipeline. *)
Definition checked_in_build (c : Cmd) : bool :=
  match c with
  | aws_ecr_create_repository _ _ | docker_login _ _ | cd _
  | docker_build _ | docker_tag _ _ | docker_push _ => true
  | _ => false
  end.

(** The update submission of the convergence stage, for an account. *)
Definition update_request (env : Environ) (account : string) : Cmd :=
  aws_cloudformation_update_stack (stack_request env account).

Definition wait_update_complete (env : Environ) : Cmd :=
  aws_cloudformation_wait "stack-update-complete" STACK_NAME (AWS_REGION env).

(** The shell after a convergence run that found nothing to update. *)
Definition after_no_update (env : Environ) (s : Shell) : Shell :=
  {| AWS_ACCOUNT_ID := AWS_ACCOUNT_ID s;
     trace := trace s ++ [describe_stack env; update_request env (AWS_ACCOUNT_ID s)];
     terminal := terminal s ++
       [ Info "Deploying infrastructure using CloudFormation...";
         Info "Stack exists. Updating...";
         Info "No updates are to be performed on the stack.";
         Info "Infrastructure deployment completed." ] |}.

(** The account is not given and the identity lookup, the first command of
    the run, fails or comes back empty. *)
Definition account_unresolved (w : World) (env : Environ) : Prop :=
  expand (env_AWS_ACCOUNT_ID env) = EmptyString /\
  (rc (respond w [] aws_sts_get_caller_identity) <> 0 \/
   strip_trailing_newlines (stdout (respond w [] aws_sts_get_caller_identity))
   = EmptyString).

(** A tool, the database password or the account is missing. *)
Definition prerequisite_missing (w : World) (env : Environ) : Prop :=
  installed w "aws" = false \/
  installed w "docker" = false \/
  DATABASE_PASSWORD env = EmptyString \/
  account_unresolved w env.

(** Two shells that differ at most in what was printed. *)
Definition agree (s s' : Shell) : Prop :=
  AWS_ACCOUNT_ID s = AWS_ACCOUNT_ID s' /\ trace s = trace s'.

(** Two actions that, from agreeing shells, end the same way (both return,
    with results related by [R], or both exit with the same status) in
    agreeing shells. *)
Definition related {A} (R : A -> A -> Prop) (m m' : Sh A) : Prop :=
  forall s s', agree s s' ->
    match m s, m' s' with
    | (Done a, t), (Done a', t') => R a a' /\ agree t t'
    | (Exited n, t), (Exited n', t') => n = n' /\ agree t t'
    | _, _ => False
    end.

Definition whatever {A} (_ _ : A) : Prop := True.

(** The three lookups the rollout starts with. *)
Definition output_lookups (env : Environ) : list Cmd :=
  [ stack_output env "ECSClusterName";
    stack_output env "BackendServiceName";
    stack_output env "FrontendServiceName" ].

Definition alb_lookup (env : Environ) : Cmd := stack_output env "ALBDNSName".

(** Output of a command, as opposed to a line the script prints itself. *)
Definition is_passthrough (l : Line) : bool :=
  match l with CmdOut _ | CmdErr _ => true | _ => false end.

Definition own_lines (ls : list Line) : list Line :=
  filter (fun l => negb (is_passthrough l)) ls.

(** The line a health check ends with, from the status of its one curl. *)
Definition health_verdict (passed failed : string) (r : Resp) : Line :=
  if Nat.eqb (rc r) 0 then Info passed else Warning failed.

(** The status a statement under [set -e] leaves the stage with. *)
Definition outcome_of (r : Resp) : Outcome unit :=
  if Nat.eqb (rc r) 0 then Done tt else Exited (rc r).

(** A shell action that, from any state, only adds commands satisfying [P]
    to the history. *)
Definition only_issues {A} (P : Cmd -> bool) (m : Sh A) : Prop :=
  forall s, exists added,
    trace (snd (m s)) = (trace s ++ added)%list /\ forallb P added = true.

Definition not_update_service (c : Cmd) : bool := negb (is_update_service c).

(** ** A control-plane double

    Concrete worlds to run the script against.  The double answers like the
    tools do: [describe-stacks] fails for a stack that is absent and
    succeeds, with the status in its output, for any stack that is present;
    [update-stack] with nothing to change is rejected with the text the
    script looks for; [curl -f] fails on an HTTP status of 400 or more. *)

Module Double.

Inductive StackState :=
| absent
| creating
| updating
| create_complete
| update_complete
| create_failed
| update_failed.

Definition is_complete (st : StackState) : bool :=
  match st with create_complete | update_complete => true | _ => false end.

Definition is_present (st : StackState) : bool :=
  match st with absent => false | _ => true end.

Definition status_name (st : StackState) : string :=
  match st with
  | absent => EmptyString
  | creating => "CREATE_IN_PROGRESS"
  | updating => "UPDATE_IN_PROGRESS"
  | create_complete => "CREATE_COMPLETE"
  | update_complete => "UPDATE_COMPLETE"
  | create_failed => "CREATE_FAILED"
  | update_failed => "UPDATE_FAILED"
  end.

Definition ok (out : string) : Resp := {| rc := 0; stdout := out; stderr := EmptyString |}.
Definition failed (status : nat) (err : string) : Resp :=
  {| rc := status; stdout := EmptyString; stderr := err |}.

Definition no_updates_answer : Resp :=
  failed 254 ("An error occurred (ValidationError) when calling the UpdateStack operation: "
              ++ "No updates are to be performed." ++ newline).

Definition busy_answer (st : StackState) : Resp :=
  failed 254 ("An error occurred (ValidationError) when calling the UpdateStack operation: "
              ++ "Stack:blog-app-stack is in " ++ status_name st
              ++ " state and can not be updated." ++ newline).

Definition accepted_answer : Resp :=
  ok ("arn:aws:cloudformation:us-east-1:123456789012:stack/blog-app-stack/0a1b2c" ++ newline).

(** The CLI rejects the command line before any request is made. *)
Definition unparsable_answer : Resp :=
  failed 252 ("Error parsing parameter '--parameters': Expected: '=', received: 'EOF'"
              ++ newline).

Definition service_not_found : Resp :=
  failed 254 ("An error occurred (ServiceNotFoundException) when calling the UpdateService operation: "
              ++ "Service not found." ++ newline).

(** [curl -s -f]: 22 on an HTTP status of 400 or more, 7 when nothing
    answers, 0 otherwise; silent either way. *)
Definition curl_answer (http_status : option nat) : Resp :=
  match http_status with
  | None => failed 7 EmptyString
  | Some code => if Nat.leb 400 code then failed 22 EmptyString else ok EmptyString
  end.

Record Scenario := {
  tools : list string;
  repositories : list string;
  stack : StackState;
  update_answer : Resp;
  missing_services : list string;
  http : list Cmd -> string -> option nat
}.

Definition mem (x : string) (l : list string) : bool := existsb (String.eqb x) l.

Definition output_value (query : string) : string :=
  if contains "ECSClusterName" query then "production-cluster"
  else if contains "BackendServiceName" query then "production-backend-svc"
  else if contains "FrontendServiceName" query then "production-frontend-svc"
  else if contains "ALBDNSName" query then "alb.example.com"
  else EmptyString.

Definition answer (sc : Scenario) (h : list Cmd) (c : Cmd) : Resp :=
  match c with
  | aws_sts_get_caller_identity => ok ("123456789012" ++ newline)
  | aws_ecr_describe_repositories name _ =>
      if mem name (repositories sc) then ok (name ++ newline)
      else failed 254 ("An error occurred (RepositoryNotFoundException) when calling the "
                       ++ "DescribeRepositories operation" ++ newline)
  | aws_ecr_get_login_password _ => ok ("token" ++ newline)
  | aws_cloudformation_describe_stacks _ _ query =>
      if is_present (stack sc) then
        match query with
        | None => ok (status_name (stack sc) ++ newline)
        | Some q => ok (output_value q ++ newline)
        end
      else failed 254 ("An error occurred (ValidationError) when calling the DescribeStacks "
                       ++ "operation: Stack with id blog-app-stack does not exist" ++ newline)
  | aws_cloudformation_update_stack _ => update_answer sc
  | aws_cloudformation_create_stack _ => accepted_answer
  | aws_ecs_update_service _ service _ =>
      if mem service (missing_services sc) then service_not_found else ok EmptyString
  | curl_s_f url => curl_answer (http sc h url)
  | _ => ok EmptyString
  end.

Definition world (sc : Scenario) : World :=
  {| installed := fun tool => mem tool (tools sc); respond := answer sc |}.

(** What [describe-stacks] shows of the stack in a world. *)
Definition shows (w : World) (env : Environ) (st : StackState) : Prop :=
  forall h, respond w h (describe_stack env) = ok (status_name st ++ newline).

(** The operator's environment: a password, the account known. *)
Definition operator : Environ :=
  {| env_ENVIRONMENT := None;
     env_AWS_REGION := None;
     env_ECR_REPOSITORY_PREFIX := None;
     env_DATABASE_PASSWORD := Some "x";
     env_AWS_ACCOUNT_ID := Some "123456789012" |}.

(** The same operator with a comma in the password, which the shorthand
    syntax of [--parameters] does not survive. *)
Definition operator_with_comma : Environ :=
  {| env_ENVIRONMENT := None;
     env_AWS_REGION := None;
     env_ECR_REPOSITORY_PREFIX := None;
     env_DATABASE_PASSWORD := Some "pa,ss";
     env_AWS_ACCOUNT_ID := Some "123456789012" |}.

(** A converged deployment: both repositories, the stack complete, nothing
    to update, both services there, both endpoints healthy. *)
Definition converged : Scenario :=
  {| tools := ["aws"; "docker"];
     repositories := ["blog-backend"; "blog-frontend"];
     stack := update_complete;
     update_answer := no_updates_answer;
     missing_services := [];
     http := fun _ _ => Some 200 |}.

(** The stack is in the middle of an update made by someone else. *)
Definition busy : Scenario :=
  {| tools := tools converged;
     repositories := repositories converged;
     stack := updating;
     update_answer := busy_answer updating;
     missing_services := [];
     http := http converged |}.

(** The update-stack command line does not parse; the stack is complete. *)
Definition unparsable : Scenario :=
  {| tools := tools converged;
     repositories := repositories converged;
     stack := update_complete;
     update_answer := unparsable_answer;
     missing_services := [];
     http := http converged |}.

(** The frontend service is not there. *)
Definition frontend_missing : Scenario :=
  {| tools := tools converged;
     repositories := repositories converged;
     stack := update_complete;
     update_answer := no_updates_answer;
     missing_services := ["production-frontend-svc"];
     http := http converged |}.

(** Nothing is healthy, whatever is asked and whenever. *)
Definition unhealthy : Scenario :=
  {| tools := tools converged;
     repositories := repositories converged;
     stack := update_complete;
     update_answer := no_updates_answer;
     missing_services := [];
     http := fun _ _ => Some 503 |}.


(** No repository yet. *)
Definition fresh_registry : Scenario :=
  {| tools := tools converged;
     repositories := [];
     stack := update_complete;
     update_answer := no_updates_answer;
     missing_services := [];
     http := http converged |}.

(** Docker is not installed. *)
Definition no_docker : Scenario :=
  {| tools := ["aws"];
     repositories := repositories converged;
     stack := update_complete;
     update_answer := no_updates_answer;
     missing_services := [];
     http := http converged |}.

End Double.

(** ** Vocabulary for the stages the claims leave out *)

(** The create submission of the convergence stage, for an account. *)
Definition create_request (env : Environ) (account : string) : Cmd :=
  aws_cloudformation_create_stack (stack_request env account).

Definition wait_create_complete (env : Environ) : Cmd :=
  aws_cloudformation_wait "stack-create-complete" STACK_NAME (AWS_REGION env).

(** A value of [--parameters], by key. *)
Fixpoint parameter (key : string) (ps : list (string * string)) : option string :=
  match ps with
  | [] => None
  | (k, v) :: rest => if String.eqb k key then Some v else parameter key rest
  end.

(** Everything the build stage issues when nothing stops it, from a shell. *)
Definition build_sequence (w : World) (env : Environ) (s : Shell) : list Cmd :=
  let backend := repository_setup w (AWS_REGION env) "blog-backend" (trace s) in
  let frontend :=
    repository_setup w (AWS_REGION env) "blog-frontend" (trace s ++ backend) in
  backend ++ frontend ++
  login_build_push env (AWS_ACCOUNT_ID s)
    (stdout (respond w (trace s ++ backend ++ frontend)
               (aws_ecr_get_login_password (AWS_REGION env)))).

Definition is_cloudformation (c : Cmd) : bool :=
  match c with
  | aws_cloudformation_describe_stacks _ _ _
  | aws_cloudformation_update_stack _
  | aws_cloudformation_create_stack _
  | aws_cloudformation_wait _ _ _ => true
  | _ => false
  end.

(** The registry and the local Docker daemon. *)
Definition is_registry_or_docker (c : Cmd) : bool :=
  match c with
  | aws_ecr_describe_repositories _ _ | aws_ecr_create_repository _ _
  | aws_ecr_get_login_password _ | docker_login _ _ | docker_build _
  | docker_tag _ _ | docker_push _ => true
  | _ => false
  end.

Definition reads_only (c : Cmd) : bool := negb (mutates c).

Definition outside_stack_and_services (c : Cmd) : bool :=
  negb (is_cloudformation c || is_update_service c).

Definition outside_registry_and_services (c : Cmd) : bool :=
  negb (is_registry_or_docker c || is_update_service c).

Definition outside_registry_and_submissions (c : Cmd) : bool :=
  negb (is_registry_or_docker c || is_stack_submission c).

Definition not_stack_submission (c : Cmd) : bool := negb (is_stack_submission c).

(** The stages of [main] up to and including the build. *)
Definition stages_through_build (w : World) (env : Environ) : Sh unit :=
  print_status "Starting deployment process..." ;;
  check_prerequisites w env ;;
  build_and_push_images w env.

(** The subcommands the script knows. *)
Definition known_subcommands : list string :=
  ["deploy"; "build"; "infrastructure"; "application"; "health"; "info"].

(** What [usage] prints. *)
Definition usage_lines (argv0 : string) : list Line :=
  [ Echo ("Usage: " ++ argv0 ++ " {deploy|build|infrastructure|application|health|info}");
    Echo EmptyString;
    Echo "Commands:";
    Echo "  deploy         - Full deployment (default)";
    Echo "  build          - Build and push Docker images only";
    Echo "  infrastructure - Deploy infrastructure only";
    Echo "  application    - Deploy application only";
    Echo "  health         - Run health checks";
    Echo "  info           - Show deployment information" ].

(** What [get_deployment_info] prints after its lookup. *)
Definition deployment_banner (env : Environ) (alb : string) : list Line :=
  [ Echo EmptyString;
    Echo "==========================================";
    Echo "DEPLOYMENT COMPLETED SUCCESSFULLY";
    Echo "==========================================";
    Echo ("Application URL: http://" ++ alb);
    Echo ("API Documentation: http://" ++ alb ++ "/docs");
    Echo ("Environment: " ++ ENVIRONMENT env);
    Echo ("Region: " ++ AWS_REGION env);
    Echo "==========================================";
    Echo EmptyString ].

(** Everything the rollout issues when nothing stops it, from a shell: the
    three lookups, then one replacement request per service, with the names
    the lookups printed. *)
Definition rollout_sequence (w : World) (env : Environ) (s : Shell) : list Cmd :=
  let name (h : list Cmd) (key : string) :=
    strip_trailing_newlines (stdout (respond w h (stack_output env key))) in
  let cluster := name (trace s) "ECSClusterName" in
  let backend :=
    name (trace s ++ [stack_output env "ECSClusterName"])%list "BackendServiceName" in
  let frontend :=
    name (trace s ++ [stack_output env "ECSClusterName";
                      stack_output env "BackendServiceName"])%list
         "FrontendServiceName" in
  (output_lookups env ++
   [ aws_ecs_update_service cluster backend (AWS_REGION env);
     aws_ecs_update_service cluster frontend (AWS_REGION env) ])%list.

(** ** The test script (scripts/test_deploy.sh)

    The script replaces [aws], [docker] and [cd] by shell functions, sources
    deploy.sh and calls one of its functions, twice.  Sourcing runs the whole
    of deploy.sh in the calling shell, its last statement included: the
    [case] on [${1:-deploy}], with the positional parameters of the test
    function, which has none.  [sleep] and [curl] are not replaced; they are
    answered by the machine the test runs on. *)

Module TestDeploy.

(** The two marker files under /tmp that the first [aws] function keeps:
    whether each exists when the script starts. *)
Record Tmp := { backend_marker : bool; frontend_marker : bool }.

Definition describes (name : string) (c : Cmd) : bool :=
  match c with
  | aws_ecr_describe_repositories n _ => String.eqb n name
  | _ => false
  end.

(** A marker is there if it was there at the start or if the repository has
    been asked for before (the function touches it then). *)
Definition marked (initially : bool) (name : string) (h : list Cmd) : bool :=
  initially || existsb (describes name) h.

(** The [aws] function of [test_build_and_push] (lines 37-62); it looks at
    [$1], [$2] and [$4], the name of the repository. *)
Definition aws_for_build (tmp : Tmp) (h : list Cmd) (c : Cmd) : Resp :=
  match c with
  | aws_ecr_describe_repositories name _ =>
      if String.eqb name "blog-backend"
         && negb (marked (backend_marker tmp) "blog-backend" h)
      then Double.failed 1 EmptyString
      else if String.eqb name "blog-frontend"
              && negb (marked (frontend_marker tmp) "blog-frontend" h)
      then Double.failed 1 EmptyString
      else Double.ok EmptyString
  | aws_ecr_create_repository name _ =>
      if String.eqb name "blog-backend"
      then Double.ok ("Repository blog-backend created" ++ newline)
      else if String.eqb name "blog-frontend"
      then Double.ok ("Repository blog-frontend created" ++ newline)
      else Double.ok EmptyString
  | aws_ecr_get_login_password _ => Double.ok ("mock-ecr-token" ++ newline)
  | _ => Double.ok EmptyString
  end.

(** The [docker] function (lines 65-80).  It prints [$4] as the target of a
    tag, which is empty: [docker tag SOURCE TARGET] has three words. *)
Definition docker_function (c : Cmd) : Resp :=
  match c with
  | docker_login _ _ => Double.ok ("Login Succeeded" ++ newline)
  | docker_build _ => Double.ok ("Building image..." ++ newline)
  | docker_tag source _ => Double.ok ("Tagging " ++ source ++ " as " ++ newline)
  | docker_push image => Double.ok ("Pushing " ++ image ++ newline)
  | _ => Double.ok EmptyString
  end.

(** The [cd] function (lines 83-86). *)
Definition cd_function (dir : string) : Resp :=
  Double.ok ("Changing directory to " ++ dir ++ newline).

(** [$*] of a create-stack call: the words joined by spaces. *)
Fixpoint join (ws : list string) : string :=
  match ws with
  | [] => EmptyString
  | [x] => x
  | x :: rest => x ++ " " ++ join rest
  end.

Definition parameter_word (p : string * string) : string :=
  "ParameterKey=" ++ fst p ++ ",ParameterValue=" ++ snd p.

Definition create_stack_words (req : StackRequest) : list string :=
  ["cloudformation"; "create-stack";
   "--stack-name"; req_stack_name req;
   "--template-body"; req_template_body req;
   "--parameters"]
  ++ map parameter_word (req_parameters req)
  ++ ["--capabilities"; req_capabilities req; "--region"; req_region req].

Definition has_both_repository_parameters (req : StackRequest) : bool :=
  contains "BackendRepositoryUri" (join (create_stack_words req))
  && contains "FrontendRepositoryUri" (join (create_stack_words req)).

(** The [aws] function of [test_deploy_infrastructure] (lines 101-120).  Its
    complaint goes through [print_error], to stdout. *)
Definition aws_for_infrastructure (h : list Cmd) (c : Cmd) : Resp :=
  match c with
  | aws_cloudformation_describe_stacks _ _ _ => Double.failed 1 EmptyString
  | aws_cloudformation_create_stack req =>
      if has_both_repository_parameters req
      then Double.ok ("Stack creation initiated with correct parameters" ++ newline)
      else {| rc := 1;
              stdout := "[ERROR] Stack creation missing required parameters" ++ newline;
              stderr := EmptyString |}
  | aws_cloudformation_wait _ _ _ => Double.ok ("Waiting for stack creation..." ++ newline)
  | _ => Double.ok EmptyString
  end.

(** The world deploy.sh sees under the functions: [command -v] finds a
    function, [aws], [docker] and [cd] are answered by the functions, the
    rest by the machine. *)
Definition mocked (aws : list Cmd -> Cmd -> Resp) (machine : World) : World :=
  {| installed := fun tool =>
       if String.eqb tool "aws" || String.eqb tool "docker" then true
       else installed machine tool;
     respond := fun h c =>
       match c with
       | sleep _ | curl_s_f _ => respond machine h c
       | cd dir => cd_function dir
       | docker_login _ _ | docker_build _ | docker_tag _ _ | docker_push _ =>
           docker_function c
       | _ => aws h c
       end |}.

(** The exports of lines 28-30 over the environment the script is run in. *)
Definition exported (outer : Environ) : Environ :=
  {| env_ENVIRONMENT := env_ENVIRONMENT outer;
     env_AWS_REGION := Some "us-west-2";
     env_ECR_REPOSITORY_PREFIX := env_ECR_REPOSITORY_PREFIX outer;
     env_DATABASE_PASSWORD := Some "blogpassword";
     env_AWS_ACCOUNT_ID := Some "587210148146" |}.

(** [echo -e "${GREEN}[SUCCESS]${NC} $1"] *)
Definition print_success (msg : string) : Sh unit := say (Echo ("[SUCCESS] " ++ msg)).

Section Tests.

Variable machine : World.
Variable tmp : Tmp.
Variable outer : Environ.
Variable argv0 : string.

(** [source ./deploy.sh] inside a function called without arguments. *)
Definition source_deploy_sh (w : World) : Sh unit :=
  dispatch w (exported outer) argv0 [].

Definition test_build_and_push : Sh unit :=
  let w := mocked (aws_for_build tmp) machine in
  print_status "Testing build_and_push_images function..." ;;
  source_deploy_sh w ;;
  build_and_push_images w (exported outer) ;;
  print_success "Test completed successfully!".

Definition test_deploy_infrastructure : Sh unit :=
  let w := mocked aws_for_infrastructure machine in
  print_status "Testing deploy_infrastructure function..." ;;
  source_deploy_sh w ;;
  deploy_infrastructure w (exported outer) ;;
  print_success "Test completed successfully!".

Definition test_deploy_sh : Outcome unit * Shell :=
  (print_status "Starting tests..." ;;
   test_build_and_push ;;
   test_deploy_infrastructure ;;
   print_success "All tests passed!") (initial (exported outer)).

End Tests.

(** What a build under the functions issues, given what logging in read
    from the pipe: a create only where asked. *)
Definition build_commands (outer : Environ) (token : string)
    (create_backend create_frontend : bool) : list Cmd :=
  (aws_ecr_describe_repositories "blog-backend" "us-west-2" ::
   (if create_backend then [aws_ecr_create_repository "blog-backend" "us-west-2"] else []))
  ++
  (aws_ecr_describe_repositories "blog-frontend" "us-west-2" ::
   (if create_frontend then [aws_ecr_create_repository "blog-frontend" "us-west-2"] else []))
  ++ login_build_push (exported outer) "587210148146" token.

Definition mock_token : string := "mock-ecr-token" ++ newline.

(** What the sourced deploy issues after its build, under the first [aws]
    function, before it sleeps: an update of the stack, a rollout with
    empty names, the entry-point lookup of the health checks. *)
Definition sourced_deploy_before_sleep (outer : Environ) : list Cmd :=
  let env := exported outer in
  [ describe_stack env;
    update_request env "587210148146";
    wait_update_complete env ]
  ++ output_lookups env
  ++ [ aws_ecs_update_service EmptyString EmptyString "us-west-2";
       aws_ecs_update_service EmptyString EmptyString "us-west-2";
       alb_lookup env ].

(** All of it when the sleep succeeds: then the health requests against an
    empty address and the information lookup. *)
Definition sourced_deploy_after_build (outer : Environ) : list Cmd :=
  sourced_deploy_before_sleep outer
  ++ [ sleep 120;
       curl_s_f "http:///health";
       curl_s_f "http:///api/health";
       alb_lookup (exported outer) ].

Definition is_success_line (l : Line) : bool :=
  match l with
  | Echo m => String.prefix "[SUCCESS]" m
  | _ => false
  end.

End TestDeploy.

(** A stack that is not there: [Double.converged] without the stack. *)
Definition absent_stack : Double.Scenario :=
  {| Double.tools := Double.tools Double.converged;
     Double.repositories := Double.repositories Double.converged;
     Double.stack := Double.absent;
     Double.update_answer := Double.no_updates_answer;
     Double.missing_services := [];
     Double.http := Double.http Double.converged |}.

(** A character occurs in a text. *)
Fixpoint occurs (c : ascii) (s : string) : bool :=
  match s with
  | EmptyString => false
  | String d rest => Ascii.eqb c d || occurs c rest
  end.

(** The update submission fails without a word: [Double.converged] with a
    silent [update-stack]. *)
Definition silent_update : Double.Scenario :=
  {| Double.tools := Double.tools Double.converged;
     Double.repositories := Double.repositories Double.converged;
     Double.stack := Double.update_complete;
     Double.update_answer := Double.failed 1 EmptyString;
     Double.missing_services := [];
     Double.http := Double.http Double.converged |}.

(** An operator who leaves the account to the identity lookup. *)
Definition operator_without_account : Environ :=
  {| env_ENVIRONMENT := None;
     env_AWS_REGION := None;
     env_ECR_REPOSITORY_PREFIX := None;
     env_DATABASE_PASSWORD := Some "x";
     env_AWS_ACCOUNT_ID := None |}.

(** ** Vocabulary for failure handling *)

(** What the health stage prints when its lookup and its sleep succeed. *)
Definition health_report (lookup slept frontend backend : Resp) : list Line :=
  [ Info "Running health checks...";
    CmdErr (stderr lookup);
    Info "Waiting for services to be ready (2 minutes)...";
    CmdOut (stdout slept);
    CmdErr (stderr slept);
    Info "Checking frontend health...";
    CmdErr (stderr frontend);
    health_verdict "Frontend health check passed."
      "Frontend health check failed. The application might still be starting up."
      frontend;
    Info "Checking backend health...";
    CmdErr (stderr backend);
    health_verdict "Backend health check passed."
      "Backend health check failed. The API might still be starting up."
      backend ].

(** Running a sequence of commands under [set -e]: the commands issued up to
    and including the first checked one that fails, and how the run ends.
    Commands that are not checked are issued and their status ignored. *)
Fixpoint until_first_failure (w : World) (checked : Cmd -> bool)
    (h : list Cmd) (sequence : list Cmd) : list Cmd * Outcome unit :=
  match sequence with
  | [] => ([], Done tt)
  | c :: rest =>
      if checked c && negb (Nat.eqb (rc (respond w h c)) 0)
      then ([c], Exited (rc (respond w h c)))
      else let (issued, outcome) := until_first_failure w checked (h ++ [c]) rest in
           (c :: issued, outcome)
  end.

Definition every_command (_ : Cmd) : bool := true.

(** The commands whose failure the script survives: the left side of [||],
    the left side of the pipe, the existence query in [if], the captured
    update submission, the health requests in [if]. *)
Definition tolerated (c : Cmd) : bool :=
  match c with
  | aws_ecr_describe_repositories _ _
  | aws_ecr_get_login_password _
  | aws_cloudformation_describe_stacks _ _ None
  | aws_cloudformation_update_stack _
  | curl_s_f _ => true
  | _ => false
  end.

Definition has_exited {A} (o : Outcome A) : bool :=
  match o with Done _ => false | Exited _ => true end.

(** Of the commands [cs] issued from history [h], each one that failed is
    tolerated, or is the last one and ended the run. *)
Fixpoint strict (w : World) (h : list Cmd) (cs : list Cmd) (exited : bool) : Prop :=
  match cs with
  | [] => True
  | c :: rest =>
      (rc (respond w h c) <> 0 ->
       tolerated c = true \/ (rest = [] /\ exited = true)) /\
      strict w (h ++ [c]) rest exited
  end.

(** An action that, from any shell, adds commands of the family [family]
    only, survives only tolerated failures, and issues no tolerated command
    twice. *)
Definition orderly {A} (w : World) (family : Cmd -> bool) (m : Sh A) : Prop :=
  forall s, exists added,
    trace (snd (m s)) = (trace s ++ added)%list /\
    strict w (trace s) added (has_exited (fst (m s))) /\
    NoDup (filter tolerated added) /\
    forallb family added = true.









(** The stack is complete and both services are there, but the entry-point
    output cannot be read. *)
Definition entry_point_unreadable : World :=
  {| installed := installed (Double.world Double.converged);
     respond := fun h c =>
       match c with
       | aws_cloudformation_describe_stacks _ _ (Some query) =>
           if contains "ALBDNSName" query
           then Double.failed 254 ("An error occurred (Throttling) when calling the "
                                   ++ "DescribeStacks operation: Rate exceeded" ++ newline)
           else Double.answer Double.converged h c
       | _ => Double.answer Double.converged h c
       end |}.

(** An action of the script that runs as a sequence of commands under
    [set -e]: its outcome and the commands it issues are those of
    [until_first_failure] on the sequence, and the account is left alone.
    The sequence may depend on the history and on the account. *)
Definition follows (w : World) (checked : Cmd -> bool) (m : Sh unit)
    (sequence : list Cmd -> string -> list Cmd) : Prop :=
  forall s,
    let reference :=
      until_first_failure w checked (trace s) (sequence (trace s) (AWS_ACCOUNT_ID s)) in
    fst (m s) = snd reference /\
    trace (snd (m s)) = (trace s ++ fst reference)%list /\
    AWS_ACCOUNT_ID (snd (m s)) = AWS_ACCOUNT_ID s.

(** The commands of a health stage that runs to its end, from a history. *)
Definition health_commands (w : World) (env : Environ) (h : list Cmd) : list Cmd :=
  let alb := strip_trailing_newlines (stdout (respond w h (alb_lookup env))) in
  [ alb_lookup env; sleep 120;
    curl_s_f (frontend_health_url alb);
    curl_s_f (backend_health_url alb) ].

(** The stack is complete and both services are there, but the sleep of
    the health stage is ended by a TERM signal (status 128 + 15). *)
Definition sleep_interrupted : World :=
  {| installed := installed (Double.world Double.converged);
     respond := fun h c =>
       match c with
       | sleep _ => Double.failed 143 EmptyString
       | _ => Double.answer Double.converged h c
       end |}.

(** ** Text lemmas: a marker survives the capture *)

Section TextFacts.

Lemma prefix_nonempty a m s :
  String.prefix (String a m) s = true -> exists s', s = String a s' /\ String.prefix m s' = true.
Proof.
  destruct s as [|b s']; simpl; [discriminate|].
  destruct (ascii_dec a b) as [->|]; [|discriminate].
  intros H. now exists s'.
Qed.

Lemma prefix_cons a m s :
  String.prefix m s = true -> String.prefix (String a m) (String a s) = true.
Proof.
  intros H. simpl. destruct (ascii_dec a a); [assumption | congruence].
Qed.

Lemma prefix_append m : forall s t,
  String.prefix m s = true -> String.prefix m (s ++ t) = true.
Proof.
  induction m as [|a m IH]; intros s t H.
  - now destruct (s ++ t).
  - apply prefix_nonempty in H as (s' & -> & H).
    simpl append. apply prefix_cons. now apply IH.
Qed.

Lemma contains_append m : forall s t,
  contains m s = true -> contains m (s ++ t) = true.
Proof.
  induction s as [|c s IH]; intros t H; simpl in H.
  - rewrite orb_false_r in H. destruct m; [|discriminate].
    now destruct t.
  - apply orb_true_iff in H as [H|H].
    + pose proof (prefix_append _ (String c s) t H) as P.
      simpl append in *. cbn [contains]. now rewrite P.
    + simpl append. cbn [contains].
      rewrite (IH t H). apply orb_true_r.
Qed.

Lemma prefix_strip m : forall s,
  ends_in_text m = true ->
  String.prefix m s = true ->
  String.prefix m (strip_trailing_newlines s) = true.
Proof.
  induction m as [|a m IH]; intros s E H; [discriminate|].
  apply prefix_nonempty in H as (s' & -> & H).
  destruct m as [|b m].
  - unfold ends_in_text in E. simpl in E.
    cbn [strip_trailing_newlines].
    destruct (strip_trailing_newlines s').
    + destruct (is_newline a); [discriminate|]. now apply prefix_cons.
    + now apply prefix_cons.
  - assert (E' : ends_in_text (String b m) = true) by exact E.
    specialize (IH s' E' H).
    cbn [strip_trailing_newlines].
    destruct (strip_trailing_newlines s') as [|c r]; [discriminate|].
    now apply prefix_cons.
Qed.

Lemma contains_strip m : forall s,
  ends_in_text m = true ->
  contains m s = true ->
  contains m (strip_trailing_newlines s) = true.
Proof.
  intros s E. induction s as [|c s IH]; intros H.
  - destruct m; [discriminate | discriminate].
  - cbn [contains] in H. apply orb_true_iff in H as [H|H].
    + apply (prefix_strip _ _ E) in H.
      destruct (strip_trailing_newlines (String c s)); cbn [contains];
        now rewrite H.
    + specialize (IH H). cbn [strip_trailing_newlines].
      destruct (strip_trailing_newlines s) as [|d r].
      * destruct m; discriminate.
      * cbn [contains]. cbn [contains] in IH. rewrite IH. apply orb_true_r.
Qed.

Lemma append_assoc (a b c : string) : a ++ (b ++ c) = (a ++ b) ++ c.
Proof. induction a as [|x a IH]; simpl; [reflexivity | now rewrite IH]. Qed.

(** What the script finds in [CLOUDFORMATION_ERROR] when the control plane's
    answer has the marker in it. *)
Lemma marker_survives_capture m r :
  ends_in_text m = true ->
  contains m (said r) = true ->
  contains m (captured_text r) = true.
Proof.
  intros E H. unfold captured_text. apply contains_strip; [assumption|].
  unfold said in H. rewrite append_assoc.
  now apply contains_append.
Qed.

End TextFacts.

(** ** The shell monad *)

Section MonadFacts.

Context {A B C : Type}.

Lemma bind_done (m : Sh A) (k : A -> Sh B) s a s' :
  m s = (Done a, s') -> bind m k s = k a s'.
Proof. unfold bind. now intros ->. Qed.

Lemma bind_exited (m : Sh A) (k : A -> Sh B) s n s' :
  m s = (Exited n, s') -> bind m k s = (Exited n, s').
Proof. unfold bind. now intros ->. Qed.

Lemma bind_assoc (m : Sh A) (f : A -> Sh B) (g : B -> Sh C) s :
  bind (bind m f) g s = bind m (fun a => bind (f a) g) s.
Proof. unfold bind. destruct (m s) as [[a|n] s']; reflexivity. Qed.

(** Two binds agree on a state when their heads do there and their
    continuations do everywhere. *)
Lemma bind_agree (m m' : Sh A) (k k' : A -> Sh B) s :
  m s = m' s -> (forall a t, k a t = k' a t) -> bind m k s = bind m' k' s.
Proof.
  intros Hm Hk. unfold bind. rewrite <- Hm.
  destruct (m s) as [[a|n] t]; [apply Hk | reflexivity].
Qed.

End MonadFacts.

(** Runs the shell as far as the answers of the world are known: unfolds
    the primitives and reduces, stopping at a test on an unknown answer. *)
Ltac sh_steps :=
  cbv beta iota delta
    [or_else pipe run capture capture_all_or_status succeeds_quietly
     succeeds_discarding_stdout issue errexit
     print_status print_warning print_error echo say
     get_AWS_ACCOUNT_ID set_AWS_ACCOUNT_ID bind ret exit
     AWS_ACCOUNT_ID trace terminal fst snd negb is_empty].

(** Flattens a history built by appending one command at a time. *)
Ltac trace_normal := repeat rewrite <- app_assoc; cbn [app].

Lemma status_test_passes (r : Resp) : rc r = 0 -> Nat.eqb (rc r) 0 = true.
Proof. now intros ->. Qed.

Lemma status_test_fails (r : Resp) : rc r <> 0 -> Nat.eqb (rc r) 0 = false.
Proof. now intros H; apply Nat.eqb_neq. Qed.

(** ** Prerequisites *)

Lemma check_prerequisites_fails_fast w env s :
  prerequisite_missing w env ->
  AWS_ACCOUNT_ID s = expand (env_AWS_ACCOUNT_ID env) ->
  trace s = [] ->
  exists n s',
    check_prerequisites w env s = (Exited n, s') /\
    n <> 0 /\
    (trace s' = [] \/ trace s' = [aws_sts_get_caller_identity]).
Proof.
  destruct s as [account history lines]. cbn [AWS_ACCOUNT_ID trace].
  intros H -> ->. unfold check_prerequisites. sh_steps.
  destruct (installed w "aws") eqn:Haws; sh_steps; [|eauto 6].
  destruct (installed w "docker") eqn:Hdocker; sh_steps; [|eauto 6].
  destruct (DATABASE_PASSWORD env) as [|c password] eqn:Hpassword; sh_steps; [eauto 6|].
  destruct H as [H|[H|[H|[Hid H]]]]; try congruence.
  rewrite Hid. sh_steps. cbn [app].
  destruct (Nat.eqb (rc (respond w [] aws_sts_get_caller_identity)) 0) eqn:Hrc; sh_steps.
  - apply Nat.eqb_eq in Hrc. destruct H as [H|H]; [congruence|].
    rewrite H. sh_steps. eauto 6.
  - apply Nat.eqb_neq in Hrc. eauto 6.
Qed.

(** C8: whatever the subcommand, when the AWS CLI or Docker is not
    installed, the database password is unset or empty, or the account
    cannot be resolved, the run ends with a status other than 0 in the
    prerequisite check.  Nothing that changes the outside has been requested
    by then (no create-repository, push, create-stack, update-stack or
    update-service): the history is empty or holds the identity lookup
    alone. *)
Theorem C8_missing_prerequisite_fails_before_any_request w env argv0 args :
  prerequisite_missing w env ->
  let result := deploy_sh w env argv0 args in
  exit_status (fst result) <> 0 /\
  existsb mutates (trace (snd result)) = false /\
  (trace (snd result) = [] \/ trace (snd result) = [aws_sts_get_caller_identity]).
Proof.
  intros H. cbv zeta. unfold deploy_sh, dispatch.
  assert (P : forall (k : Sh unit) s,
            AWS_ACCOUNT_ID s = expand (env_AWS_ACCOUNT_ID env) ->
            trace s = [] ->
            let result := (check_prerequisites w env ;; k) s in
            exit_status (fst result) <> 0 /\
            existsb mutates (trace (snd result)) = false /\
            (trace (snd result) = [] \/
             trace (snd result) = [aws_sts_get_caller_identity])).
  { intros k s Ha Ht. cbv zeta.
    destruct (check_prerequisites_fails_fast w env s H Ha Ht) as (n & s' & E & N & T).
    rewrite (bind_exited _ _ _ _ _ E). cbn [fst snd exit_status].
    split; [exact N|]. split; [|exact T].
    destruct T as [-> | ->]; reflexivity. }
  destruct (subcommand args =? "deploy").
  { unfold main. unfold print_status at 1, say, bind at 1. now apply P. }
  repeat match goal with
         | |- context [if ?b then _ else _] => destruct b; [now apply P|]
         end.
  cbn. repeat split; auto.
Qed.

Lemma C8_witness :
  prerequisite_missing (Double.world Double.no_docker) Double.operator /\
  exit_status (fst (deploy_sh (Double.world Double.no_docker) Double.operator
                      "deploy.sh" ["build"])) <> 0 /\
  existsb mutates
    (trace (snd (deploy_sh (Double.world Double.no_docker) Double.operator
                   "deploy.sh" ["build"]))) = false /\
  (trace (snd (deploy_sh (Double.world Double.no_docker) Double.operator
                 "deploy.sh" ["build"])) = [] \/
   trace (snd (deploy_sh (Double.world Double.no_docker) Double.operator
                 "deploy.sh" ["build"])) = [aws_sts_get_caller_identity]).
Proof.
  assert (H : prerequisite_missing (Double.world Double.no_docker) Double.operator)
    by (right; left; reflexivity).
  split; [exact H|].
  exact (C8_missing_prerequisite_fails_before_any_request
           (Double.world Double.no_docker) Double.operator "deploy.sh" ["build"] H).
Defined.

(** ** Argument handling *)

(** C9: without a subcommand the script does what [deploy] does (whatever
    follows the word [deploy] on the command line), which is [main]:
    prerequisites, build, infrastructure, rollout, health checks and the
    deployment information, in this order. *)
Theorem C9_no_subcommand_runs_full_deploy w env argv0 more :
  deploy_sh w env argv0 [] = deploy_sh w env argv0 ("deploy" :: more) /\
  deploy_sh w env argv0 [] =
    (print_status "Starting deployment process..." ;;
     check_prerequisites w env ;;
     build_and_push_images w env ;;
     deploy_infrastructure w env ;;
     deploy_application w env ;;
     run_health_checks w env ;;
     get_deployment_info w env ;;
     print_status "Deployment completed successfully!") (initial env).
Proof.
  unfold deploy_sh, dispatch, subcommand. cbn [nth_error or_default is_empty].
  rewrite String.eqb_refl. split; reflexivity.
Qed.

(** ** Build stage *)

(** C10: for each of blog-backend and blog-frontend the build stage asks
    whether the repository is there and issues create-repository exactly
    when that query fails; both happen before the login, the builds and the
    pushes.  When the other commands of the stage succeed the stage
    completes whatever the two queries answer, so an absent repository
    alone never fails the build, and a repository that is there gets no
    create request. *)
Theorem C10_repositories_created_on_demand w env s :
  (forall h c, checked_in_build c = true -> rc (respond w h c) = 0) ->
  let t1 := (trace s ++ repository_setup w (AWS_REGION env) "blog-backend" (trace s))%list in
  let t2 := (t1 ++ repository_setup w (AWS_REGION env) "blog-frontend" t1)%list in
  exists s',
    build_and_push_images w env s = (Done tt, s') /\
    trace s' =
      (t2 ++ login_build_push env (AWS_ACCOUNT_ID s)
               (stdout (respond w t2 (aws_ecr_get_login_password (AWS_REGION env)))))%list.
Proof.
  intros H t1 t2. subst t2 t1. unfold repository_setup, login_build_push.
  destruct s as [account history lines].
  assert (H' : forall h c, checked_in_build c = true ->
                           Nat.eqb (rc (respond w h c)) 0 = true)
    by (intros; apply status_test_passes; auto).
  unfold build_and_push_images. sh_steps.
  destruct (Nat.eqb (rc (respond w history _)) 0) eqn:E1; sh_steps; trace_normal;
    try (rewrite (H' _ (aws_ecr_create_repository _ _)) by reflexivity;
         sh_steps; trace_normal);
    destruct (Nat.eqb (rc (respond w _
                (aws_ecr_describe_repositories "blog-frontend" _))) 0) eqn:E2;
    sh_steps; trace_normal;
    repeat (rewrite H' by reflexivity; sh_steps);
    (eexists; split; [reflexivity|]; cbn [trace]; trace_normal; reflexivity).
Qed.

Lemma C10_witness :
  (forall h c, checked_in_build c = true ->
     rc (respond (Double.world Double.fresh_registry) h c) = 0) /\
  exists s',
    build_and_push_images (Double.world Double.fresh_registry) Double.operator
      (initial Double.operator) = (Done tt, s') /\
    trace s' =
      [ aws_ecr_describe_repositories "blog-backend" "us-east-1";
        aws_ecr_create_repository "blog-backend" "us-east-1";
        aws_ecr_describe_repositories "blog-frontend" "us-east-1";
        aws_ecr_create_repository "blog-frontend" "us-east-1";
        aws_ecr_get_login_password "us-east-1";
        docker_login ("token" ++ newline) "123456789012.dkr.ecr.us-east-1.amazonaws.com";
        cd "backend"; docker_build "backend:latest"; cd "..";
        cd "frontend"; docker_build "frontend:latest"; cd "..";
        docker_tag "backend:latest"
          "123456789012.dkr.ecr.us-east-1.amazonaws.com/blog-backend:latest";
        docker_push "123456789012.dkr.ecr.us-east-1.amazonaws.com/blog-backend:latest";
        docker_tag "frontend:latest"
          "123456789012.dkr.ecr.us-east-1.amazonaws.com/blog-frontend:latest";
        docker_push "123456789012.dkr.ecr.us-east-1.amazonaws.com/blog-frontend:latest" ].
Proof.
  assert (H : forall h c, checked_in_build c = true ->
            rc (respond (Double.world Double.fresh_registry) h c) = 0).
  { intros h c. destruct c; try discriminate; reflexivity. }
  split; [exact H|].
  exact (C10_repositories_created_on_demand
           (Double.world Double.fresh_registry) Double.operator
           (initial Double.operator) H).
Defined.

(** ** Stack convergence *)

(** C1: against a stack for which the control plane answers the update
    submission with the no-updates text (a complete stack, unchanged
    parameters), the convergence stage completes without exiting, and so
    does a second run right after it.  Each run issues the existence query
    and the update submission and nothing else: no create-stack, no wait,
    no further request. *)
Theorem C1_converged_rerun_is_noop w env s :
  (forall h, rc (respond w h (describe_stack env)) = 0) ->
  (forall h account,
     contains no_updates_marker (said (respond w h (update_request env account))) = true) ->
  deploy_infrastructure w env s = (Done tt, after_no_update env s) /\
  deploy_infrastructure w env (after_no_update env s)
    = (Done tt, after_no_update env (after_no_update env s)).
Proof.
  intros Hd Hu.
  assert (once : forall t, deploy_infrastructure w env t = (Done tt, after_no_update env t)).
  { intros [account history lines]. unfold deploy_infrastructure, after_no_update.
    sh_steps. rewrite (status_test_passes _ (Hd _)). sh_steps.
    fold (update_request env account).
    rewrite (marker_survives_capture no_updates_marker _ eq_refl (Hu _ _)). sh_steps.
    trace_normal. reflexivity. }
  split; apply once.
Qed.

Lemma C1_witness :
  (forall h, rc (respond (Double.world Double.converged) h
                   (describe_stack Double.operator)) = 0) /\
  (forall h account,
     contains no_updates_marker
       (said (respond (Double.world Double.converged) h
                (update_request Double.operator account))) = true) /\
  deploy_infrastructure (Double.world Double.converged) Double.operator
    (initial Double.operator)
    = (Done tt, after_no_update Double.operator (initial Double.operator)) /\
  deploy_infrastructure (Double.world Double.converged) Double.operator
    (after_no_update Double.operator (initial Double.operator))
    = (Done tt, after_no_update Double.operator
                  (after_no_update Double.operator (initial Double.operator))).
Proof.
  assert (Hd : forall h, rc (respond (Double.world Double.converged) h
                               (describe_stack Double.operator)) = 0)
    by (intros h; reflexivity).
  assert (Hu : forall h account,
             contains no_updates_marker
               (said (respond (Double.world Double.converged) h
                        (update_request Double.operator account))) = true)
    by (intros h account; reflexivity).
  split; [exact Hd|]. split; [exact Hu|].
  exact (C1_converged_rerun_is_noop _ _ (initial Double.operator) Hd Hu).
Defined.

(** C2, as the script has it: when the existence query succeeds, the stage
    makes no check of the state of the stack and does not give up before
    submitting.  Whatever the query printed, the next command it issues is
    an update-stack request, and no create-stack follows. *)
Theorem C2_existing_stack_is_updated_unchecked w env s :
  rc (respond w (trace s) (describe_stack env)) = 0 ->
  exists rest,
    trace (snd (deploy_infrastructure w env s)) =
      (trace s ++ describe_stack env ::
         update_request env (AWS_ACCOUNT_ID s) :: rest)%list /\
    existsb is_stack_submission rest = false.
Proof.
  destruct s as [account history lines]. cbn [trace AWS_ACCOUNT_ID].
  intros Hd.
  unfold deploy_infrastructure. sh_steps.
  rewrite (status_test_passes _ Hd). sh_steps.
  fold (update_request env account).
  destruct (contains no_updates_marker _); sh_steps.
  - exists []. trace_normal. split; reflexivity.
  - destruct (contains error_marker _); sh_steps.
    + exists []. trace_normal. split; reflexivity.
    + exists [wait_update_complete env].
      destruct (Nat.eqb (rc (respond w _ _)) 0); sh_steps; trace_normal;
        split; reflexivity.
Qed.

Lemma C2_witness :
  rc (respond (Double.world Double.busy) (trace (initial Double.operator))
        (describe_stack Double.operator)) = 0 /\
  exists rest,
    trace (snd (deploy_infrastructure (Double.world Double.busy) Double.operator
                  (initial Double.operator)))
    = (describe_stack Double.operator
       :: update_request Double.operator "123456789012" :: rest) /\
    existsb is_stack_submission rest = false.
Proof.
  split; [reflexivity|].
  exact (C2_existing_stack_is_updated_unchecked
           (Double.world Double.busy) Double.operator (initial Double.operator)
           eq_refl).
Defined.

(** C2 as claimed fails: the stack is shown in the updating state, and the
    stage still submits an update-stack request; the run ends with status 1
    only because the control plane rejects that request. *)
Lemma C2_busy_stack_gets_update_request :
  Double.shows (Double.world Double.busy) Double.operator Double.updating /\
  Double.is_complete Double.updating = false /\
  existsb is_stack_submission
    (trace (snd (deploy_infrastructure (Double.world Double.busy) Double.operator
                   (initial Double.operator)))) = true /\
  deploy_infrastructure (Double.world Double.busy) Double.operator
    (initial Double.operator)
  = (Exited 1,
     {| AWS_ACCOUNT_ID := "123456789012";
        trace := [ describe_stack Double.operator;
                   update_request Double.operator "123456789012" ];
        terminal :=
          [ Info "Deploying infrastructure using CloudFormation...";
            Info "Stack exists. Updating...";
            Error ("Failed to update CloudFormation stack: "
                   ++ captured_text (Double.busy_answer Double.updating)) ] |}).
Proof.
  split; [intros h; reflexivity|]. repeat split.
Qed.

(** C3 at the failing input: the update submission fails with status 252
    and a text that has neither the no-updates text nor the lower-case word
    error in it.  The script takes the branch meant for an accepted update,
    waits for stack-update-complete (which returns at once for a stack that
    is already complete) and the stage completes: the run is not aborted. *)
Theorem C3_error_answer_without_error_word_is_not_aborted :
  let w := Double.world Double.unparsable in
  let env := Double.operator_with_comma in
  let answer := respond w [describe_stack env] (update_request env "123456789012") in
  rc answer = 252 /\
  contains no_updates_marker (said answer) = false /\
  deploy_infrastructure w env (initial env)
  = (Done tt,
     {| AWS_ACCOUNT_ID := "123456789012";
        trace := [ describe_stack env;
                   update_request env "123456789012";
                   wait_update_complete env ];
        terminal :=
          [ Info "Deploying infrastructure using CloudFormation...";
            Info "Stack exists. Updating...";
            Info "Waiting for stack update to complete...";
            CmdOut EmptyString; CmdErr EmptyString;
            Info "Infrastructure deployment completed." ] |}).
Proof. repeat split. Qed.

(** ** What a stage can issue *)

Section OnlyIssues.

Variable P : Cmd -> bool.

Lemma only_ret {A} (a : A) : only_issues P (ret a).
Proof. intros s. exists []. split; [symmetry; apply app_nil_r | reflexivity]. Qed.

Lemma only_exit {A} n : only_issues P (@exit A n).
Proof. intros s. exists []. split; [symmetry; apply app_nil_r | reflexivity]. Qed.

Lemma only_say l : only_issues P (say l).
Proof. intros s. exists []. split; [symmetry; apply app_nil_r | reflexivity]. Qed.

Lemma only_get : only_issues P get_AWS_ACCOUNT_ID.
Proof. intros s. exists []. split; [symmetry; apply app_nil_r | reflexivity]. Qed.

Lemma only_set v : only_issues P (set_AWS_ACCOUNT_ID v).
Proof. intros s. exists []. split; [symmetry; apply app_nil_r | reflexivity]. Qed.

Lemma only_issue w c : P c = true -> only_issues P (issue w c).
Proof. intros H s. exists [c]. split; [reflexivity | cbn; now rewrite H]. Qed.

Lemma only_bind {A B} (m : Sh A) (k : A -> Sh B) :
  only_issues P m -> (forall a, only_issues P (k a)) -> only_issues P (bind m k).
Proof.
  intros Hm Hk s. unfold bind.
  destruct (Hm s) as (added & T & F).
  destruct (m s) as [[a|n] s']; cbn [snd] in T.
  - destruct (Hk a s') as (added' & T' & F').
    exists (added ++ added')%list. split.
    + rewrite T', T. symmetry. apply app_assoc.
    + rewrite forallb_app, F, F'. reflexivity.
  - exists added. now split.
Qed.

Lemma only_if {A} (b : bool) (m1 m2 : Sh A) :
  only_issues P m1 -> only_issues P m2 -> only_issues P (if b then m1 else m2).
Proof. now destruct b. Qed.

End OnlyIssues.

Create HintDb sh_issues.
#[local] Hint Resolve only_ret only_exit only_say only_get only_set only_if : sh_issues.
#[local] Hint Extern 1 (only_issues _ (bind _ _)) =>
  apply only_bind; [|intros ?] : sh_issues.
#[local] Hint Extern 1 (only_issues _ (issue _ _)) =>
  apply only_issue; reflexivity : sh_issues.
#[local] Hint Extern 2 (only_issues _ _) =>
  progress unfold print_status, print_warning, print_error, echo, run, capture,
    capture_all_or_status, succeeds_quietly, succeeds_discarding_stdout,
    or_else, pipe, errexit : sh_issues.

Lemma no_rollout_in_check_prerequisites w env :
  only_issues not_update_service (check_prerequisites w env).
Proof. unfold check_prerequisites. auto 50 with sh_issues. Qed.

Lemma no_rollout_in_build w env :
  only_issues not_update_service (build_and_push_images w env).
Proof. unfold build_and_push_images. auto 100 with sh_issues. Qed.

Lemma no_rollout_in_convergence w env :
  only_issues not_update_service (deploy_infrastructure w env).
Proof. unfold deploy_infrastructure. auto 50 with sh_issues. Qed.

(** ** Rollout *)

(** C5, as the script has it: when the backend request has been accepted
    and the frontend request is rejected, the run ends there with the
    status of the rejected command, which is not zero.  The script prints
    nothing of its own about it: after the line that announces the rollout,
    only what the commands themselves wrote reaches the terminal. *)
Theorem C5_rejected_frontend_exits_with_its_status w env s cluster backend frontend :
  outputs_resolve w env cluster backend frontend ->
  let to_backend := aws_ecs_update_service cluster backend (AWS_REGION env) in
  let to_frontend := aws_ecs_update_service cluster frontend (AWS_REGION env) in
  let accepted := respond w (trace s ++ output_lookups env)%list to_backend in
  let rejected := respond w (trace s ++ output_lookups env ++ [to_backend])%list to_frontend in
  rc accepted = 0 ->
  rc rejected <> 0 ->
  let result := deploy_application w env s in
  fst result = Exited (rc rejected) /\
  trace (snd result) = (trace s ++ output_lookups env ++ [to_backend; to_frontend])%list /\
  exists added,
    terminal (snd result) = (terminal s ++ added)%list /\
    own_lines added = [Info "Deploying application..."].
Proof.
  destruct s as [account history lines]. cbn [trace terminal].
  unfold output_lookups. cbn [app]. intros R Ha Hr.
  unfold deploy_application. sh_steps.
  destruct (R history) as ((R1 & N1) & _).
  rewrite (status_test_passes _ R1), N1. sh_steps.
  destruct (R (history ++ [stack_output env "ECSClusterName"])%list) as (_ & (R2 & N2) & _).
  rewrite (status_test_passes _ R2), N2. sh_steps.
  destruct (R ((history ++ [stack_output env "ECSClusterName"])
                 ++ [stack_output env "BackendServiceName"])%list) as (_ & _ & (R3 & N3)).
  rewrite (status_test_passes _ R3), N3. sh_steps.
  trace_normal.
  rewrite (status_test_passes _ Ha). sh_steps. trace_normal.
  rewrite (status_test_fails _ Hr). sh_steps.
  split; [reflexivity|]. split; [trace_normal; reflexivity|].
  eexists. split; [trace_normal; reflexivity|]. reflexivity.
Qed.

Lemma C5_witness :
  outputs_resolve (Double.world Double.frontend_missing) Double.operator
    "production-cluster" "production-backend-svc" "production-frontend-svc" /\
  fst (deploy_application (Double.world Double.frontend_missing) Double.operator
         (initial Double.operator)) = Exited 254 /\
  trace (snd (deploy_application (Double.world Double.frontend_missing)
                Double.operator (initial Double.operator)))
  = (output_lookups Double.operator
     ++ [ aws_ecs_update_service "production-cluster" "production-backend-svc" "us-east-1";
          aws_ecs_update_service "production-cluster" "production-frontend-svc" "us-east-1" ])%list /\
  exists added,
    terminal (snd (deploy_application (Double.world Double.frontend_missing)
                     Double.operator (initial Double.operator))) = added /\
    own_lines added = [Info "Deploying application..."].
Proof.
  assert (R : outputs_resolve (Double.world Double.frontend_missing) Double.operator
                "production-cluster" "production-backend-svc" "production-frontend-svc")
    by (intros h; repeat split).
  split; [exact R|].
  refine (C5_rejected_frontend_exits_with_its_status
            (Double.world Double.frontend_missing) Double.operator
            (initial Double.operator) _ _ _ R eq_refl _).
  discriminate.
Defined.

(** C5 as claimed fails: the backend request is accepted, the frontend
    request is rejected, the run ends with status 254, and no line on the
    terminal is an error line of the script or names the frontend service. *)
Lemma C5_partial_failure_is_not_reported :
  let w := Double.world Double.frontend_missing in
  let result := deploy_sh w Double.operator "deploy.sh" ["application"] in
  let to_backend :=
    aws_ecs_update_service "production-cluster" "production-backend-svc" "us-east-1" in
  let to_frontend :=
    aws_ecs_update_service "production-cluster" "production-frontend-svc" "us-east-1" in
  trace (snd result) = (output_lookups Double.operator ++ [to_backend; to_frontend])%list /\
  rc (respond w (output_lookups Double.operator) to_backend) = 0 /\
  rc (respond w (output_lookups Double.operator ++ [to_backend])%list to_frontend) = 254 /\
  fst result = Exited 254 /\
  own_lines (terminal (snd result))
  = [ Info "Checking prerequisites...";
      Info "Prerequisites check passed.";
      Info "Deploying application..." ] /\
  existsb (fun l => is_error_line l
                    || contains "production-frontend-svc" (line_text l))
          (terminal (snd result)) = false.
Proof. repeat split. Qed.

Lemma no_rollout_through_convergence w env :
  only_issues not_update_service (stages_through_convergence w env).
Proof.
  unfold stages_through_convergence.
  apply only_bind; [apply only_say | intros _].
  apply only_bind; [apply no_rollout_in_check_prerequisites | intros _].
  apply only_bind; [apply no_rollout_in_build | intros _].
  apply no_rollout_in_convergence.
Qed.

Lemma main_after_convergence w env s :
  main w env s =
  (stages_through_convergence w env ;;
   deploy_application w env ;;
   run_health_checks w env ;;
   get_deployment_info w env ;;
   print_status "Deployment completed successfully!") s.
Proof.
  unfold main, stages_through_convergence.
  repeat (rewrite bind_assoc; apply bind_agree; [reflexivity|]; intros _ ?).
  reflexivity.
Qed.

Lemma forallb_not_existsb {A} (p : A -> bool) l :
  forallb (fun x => negb (p x)) l = true -> existsb p l = false.
Proof.
  induction l as [|x l IH]; cbn; [reflexivity|].
  intros H. apply andb_true_iff in H as [Hx Hl].
  apply negb_true_iff in Hx. now rewrite Hx, IH.
Qed.

(** C6, as the script has it.  In the full deploy a replacement request is
    issued only once the stages through stack convergence have completed;
    if they have not, the history holds no update-service.  The rollout
    itself never looks at the state of the stack: from any shell, once the
    three output lookups succeed, the backend replacement request follows
    them directly, so the [application] subcommand acts on whatever stack
    the lookups could read. *)
Theorem C6_rollout_follows_lookups_unchecked w env argv0 s cluster backend frontend :
  outputs_resolve w env cluster backend frontend ->
  ((exists t, stages_through_convergence w env (initial env) = (Done tt, t)) \/
   existsb is_update_service (trace (snd (deploy_sh w env argv0 ["deploy"]))) = false) /\
  (exists rest,
     trace (snd (deploy_application w env s)) =
       (trace s ++ output_lookups env
          ++ aws_ecs_update_service cluster backend (AWS_REGION env) :: rest)%list).
Proof.
  intros R. split.
  - change (deploy_sh w env argv0 ["deploy"]) with (main w env (initial env)).
    rewrite main_after_convergence.
    destruct (no_rollout_through_convergence w env (initial env)) as (added & T & F).
    destruct (stages_through_convergence w env (initial env)) as [[[]|n] t] eqn:E.
    + left. now exists t.
    + right. rewrite (bind_exited _ _ _ _ _ E). cbn [snd] in *.
      rewrite T. cbn [initial trace app].
      now apply forallb_not_existsb.
  - destruct s as [account history lines]. cbn [trace].
    unfold output_lookups, deploy_application. sh_steps.
    destruct (R history) as ((R1 & N1) & _).
    rewrite (status_test_passes _ R1), N1. sh_steps.
    destruct (R (history ++ [stack_output env "ECSClusterName"])%list) as (_ & (R2 & N2) & _).
    rewrite (status_test_passes _ R2), N2. sh_steps.
    destruct (R ((history ++ [stack_output env "ECSClusterName"])
                   ++ [stack_output env "BackendServiceName"])%list) as (_ & _ & (R3 & N3)).
    rewrite (status_test_passes _ R3), N3. sh_steps.
    destruct (Nat.eqb (rc (respond w _ (aws_ecs_update_service cluster backend _))) 0);
      sh_steps.
    + destruct (Nat.eqb (rc (respond w _ (aws_ecs_update_service cluster frontend _))) 0);
        sh_steps; eexists; trace_normal; reflexivity.
    + eexists; trace_normal; reflexivity.
Qed.

Lemma C6_witness :
  outputs_resolve (Double.world Double.busy) Double.operator
    "production-cluster" "production-backend-svc" "production-frontend-svc" /\
  ((exists t, stages_through_convergence (Double.world Double.busy) Double.operator
                (initial Double.operator) = (Done tt, t)) \/
   existsb is_update_service
     (trace (snd (deploy_sh (Double.world Double.busy) Double.operator
                    "deploy.sh" ["deploy"]))) = false) /\
  (exists rest,
     trace (snd (deploy_application (Double.world Double.busy) Double.operator
                   (initial Double.operator))) =
       (output_lookups Double.operator
          ++ aws_ecs_update_service "production-cluster" "production-backend-svc"
               "us-east-1" :: rest)%list).
Proof.
  assert (R : outputs_resolve (Double.world Double.busy) Double.operator
                "production-cluster" "production-backend-svc" "production-frontend-svc")
    by (intros h; repeat split).
  split; [exact R|].
  exact (C6_rollout_follows_lookups_unchecked
           (Double.world Double.busy) Double.operator "deploy.sh"
           (initial Double.operator) _ _ _ R).
Defined.

(** C6 as claimed fails: the stack is shown in the updating state, and the
    [application] subcommand resolves the service names from it and issues
    both replacement requests. *)
Lemma C6_rollout_against_updating_stack :
  let w := Double.world Double.busy in
  let result := deploy_sh w Double.operator "deploy.sh" ["application"] in
  Double.shows w Double.operator Double.updating /\
  Double.is_complete Double.updating = false /\
  fst result = Done tt /\
  trace (snd result)
  = (output_lookups Double.operator
     ++ [ aws_ecs_update_service "production-cluster" "production-backend-svc" "us-east-1";
          aws_ecs_update_service "production-cluster" "production-frontend-svc" "us-east-1" ])%list.
Proof. split; [intros h; reflexivity|]. repeat split. Qed.


(** ** Health checks *)

(** The health stage, case by case: a failed lookup or a failed sleep ends
    the run with its status; otherwise each path is asked once and the
    stage returns. *)
Lemma health_stage_runs_once w env s :
  let lookup := respond w (trace s) (alb_lookup env) in
  let alb := strip_trailing_newlines (stdout lookup) in
  let slept := respond w (trace s ++ [alb_lookup env])%list (sleep 120) in
  let to_frontend := curl_s_f (frontend_health_url alb) in
  let to_backend := curl_s_f (backend_health_url alb) in
  let frontend := respond w (trace s ++ [alb_lookup env; sleep 120])%list to_frontend in
  let backend :=
    respond w (trace s ++ [alb_lookup env; sleep 120; to_frontend])%list to_backend in
  run_health_checks w env s =
    if Nat.eqb (rc lookup) 0 then
      if Nat.eqb (rc slept) 0 then
        (Done tt,
         {| AWS_ACCOUNT_ID := AWS_ACCOUNT_ID s;
            trace := trace s ++ [alb_lookup env; sleep 120; to_frontend; to_backend];
            terminal := terminal s ++ health_report lookup slept frontend backend |})
      else
        (Exited (rc slept),
         {| AWS_ACCOUNT_ID := AWS_ACCOUNT_ID s;
            trace := trace s ++ [alb_lookup env; sleep 120];
            terminal := terminal s ++
              [ Info "Running health checks...";
                CmdErr (stderr lookup);
                Info "Waiting for services to be ready (2 minutes)...";
                CmdOut (stdout slept);
                CmdErr (stderr slept) ] |})
    else
      (Exited (rc lookup),
       {| AWS_ACCOUNT_ID := AWS_ACCOUNT_ID s;
          trace := trace s ++ [alb_lookup env];
          terminal := terminal s ++
            [Info "Running health checks..."; CmdErr (stderr lookup)] |}).
Proof.
  destruct s as [account history lines]. cbv zeta.
  cbn [trace terminal AWS_ACCOUNT_ID].
  unfold run_health_checks, health_report, health_verdict, alb_lookup. sh_steps.
  destruct (Nat.eqb (rc (respond w history _)) 0); sh_steps; trace_normal;
    [|reflexivity].
  destruct (Nat.eqb (rc (respond w _ (sleep 120))) 0); sh_steps; trace_normal;
    [|reflexivity].
  destruct (Nat.eqb (rc (respond w _ (curl_s_f (frontend_health_url _)))) 0);
    sh_steps; trace_normal;
    destruct (Nat.eqb (rc (respond w _ (curl_s_f (backend_health_url _)))) 0);
    sh_steps; trace_normal; reflexivity.
Qed.



Lemma main_after_rollout w env s :
  main w env s =
  (stages_through_rollout w env ;;
   run_health_checks w env ;;
   get_deployment_info w env ;;
   print_status "Deployment completed successfully!") s.
Proof.
  unfold main, stages_through_rollout.
  repeat (rewrite bind_assoc; apply bind_agree; [reflexivity|]; intros _ ?).
  reflexivity.
Qed.

(** ** Health answers do not reach the exit status *)

Section HealthIsAdvisory.

Variables w w' : World.
Hypothesis same : same_but_health w w'.

Lemma related_ret {A} (a : A) : related eq (ret a) (ret a).
Proof. intros s s' H. cbn. now split. Qed.

Lemma related_ret_whatever {A} (a a' : A) : related whatever (ret a) (ret a').
Proof. intros s s' H. cbn. now split. Qed.

Lemma related_exit {A} (R : A -> A -> Prop) n : related R (exit n) (exit n).
Proof. intros s s' H. cbn. now split. Qed.

Lemma related_say l l' : related eq (say l) (say l').
Proof. intros s s' [H1 H2]. cbn. repeat split; assumption. Qed.

Lemma related_get : related eq get_AWS_ACCOUNT_ID get_AWS_ACCOUNT_ID.
Proof. intros s s' [H1 H2]. cbn. repeat split; assumption. Qed.

Lemma related_set v : related eq (set_AWS_ACCOUNT_ID v) (set_AWS_ACCOUNT_ID v).
Proof. intros s s' [H1 H2]. cbn. repeat split; assumption. Qed.

Lemma related_issue c : is_curl c = false -> related eq (issue w c) (issue w' c).
Proof.
  intros Hc s s' [H1 H2]. unfold issue, agree. cbn [AWS_ACCOUNT_ID trace].
  destruct same as [_ Hr].
  rewrite H2, (Hr _ _ Hc). now repeat split.
Qed.

Lemma related_issue_curl c : related whatever (issue w c) (issue w' c).
Proof.
  intros s s' [H1 H2]. unfold issue, agree, whatever. cbn [AWS_ACCOUNT_ID trace].
  rewrite H2. now repeat split.
Qed.

Lemma related_bind {A B} (R : A -> A -> Prop) (R' : B -> B -> Prop)
    (m m' : Sh A) (k k' : A -> Sh B) :
  related R m m' ->
  (forall a a', R a a' -> related R' (k a) (k' a')) ->
  related R' (bind m k) (bind m' k').
Proof.
  intros Hm Hk s s' H. unfold bind. specialize (Hm s s' H).
  destruct (m s) as [[a|n] t], (m' s') as [[a'|n'] t']; try contradiction.
  - destruct Hm as [Ha Ht]. exact (Hk a a' Ha t t' Ht).
  - exact Hm.
Qed.

Lemma related_if {A} (R : A -> A -> Prop) (b : bool) (m1 m2 m1' m2' : Sh A) :
  related R m1 m1' -> related R m2 m2' ->
  related R (if b then m1 else m2) (if b then m1' else m2').
Proof. now destruct b. Qed.

(** A branch on a result that may differ between the two runs. *)
Lemma related_if_whatever {A} (R : A -> A -> Prop) (b b' : bool) (m1 m2 : Sh A) (m1' m2' : Sh A) :
  related R m1 m1' -> related R m1 m2' -> related R m2 m1' -> related R m2 m2' ->
  related R (if b then m1 else m2) (if b' then m1' else m2').
Proof. now destruct b, b'. Qed.

End HealthIsAdvisory.

(** Relates two runs of the same script text, statement by statement. *)
Ltac related_tac :=
  lazymatch goal with
  | |- related _ (bind _ _) (bind _ _) =>
      eapply related_bind; [related_tac | intros ? ? ?; subst; related_tac]
  | |- related _ (issue _ _) (issue _ _) =>
      first [apply related_issue; [assumption | reflexivity]
            | apply related_issue_curl]
  | |- related _ (say _) (say _) => apply related_say
  | |- related _ (ret _) (ret _) =>
      first [apply related_ret | apply related_ret_whatever]
  | |- related _ (exit _) (exit _) => apply related_exit
  | |- related _ get_AWS_ACCOUNT_ID get_AWS_ACCOUNT_ID => apply related_get
  | |- related _ (set_AWS_ACCOUNT_ID _) (set_AWS_ACCOUNT_ID _) => apply related_set
  | |- related _ (if ?b then _ else _) (if ?b then _ else _) =>
      apply related_if; related_tac
  | |- related _ (if _ then _ else _) (if _ then _ else _) =>
      apply related_if_whatever; related_tac
  | |- related _ _ _ =>
      progress unfold print_status, print_warning, print_error, echo, run,
        capture, capture_all_or_status, succeeds_quietly,
        succeeds_discarding_stdout, or_else, pipe, errexit;
      related_tac
  end.

Section HealthIsAdvisoryStages.

Variables w w' : World.
Variable env : Environ.
Hypothesis same : same_but_health w w'.

Lemma related_check_prerequisites :
  related eq (check_prerequisites w env) (check_prerequisites w' env).
Proof.
  unfold check_prerequisites. pose proof (proj1 same) as Hi.
  rewrite !Hi. related_tac.
Qed.

Lemma related_build :
  related eq (build_and_push_images w env) (build_and_push_images w' env).
Proof. unfold build_and_push_images. related_tac. Qed.

Lemma related_convergence :
  related eq (deploy_infrastructure w env) (deploy_infrastructure w' env).
Proof. unfold deploy_infrastructure. related_tac. Qed.

Lemma related_rollout :
  related eq (deploy_application w env) (deploy_application w' env).
Proof. unfold deploy_application. related_tac. Qed.

Lemma related_info :
  related eq (get_deployment_info w env) (get_deployment_info w' env).
Proof. unfold get_deployment_info. related_tac. Qed.

Lemma related_health :
  related eq (run_health_checks w env) (run_health_checks w' env).
Proof. unfold run_health_checks. related_tac. Qed.

End HealthIsAdvisoryStages.

Section HealthIsAdvisoryScript.

Variables w w' : World.
Variable env : Environ.
Variable argv0 : string.
Hypothesis same : same_but_health w w'.

Lemma related_main : related eq (main w env) (main w' env).
Proof.
  unfold main.
  eapply related_bind; [apply related_say | intros ? ? _].
  eapply related_bind; [now apply related_check_prerequisites | intros ? ? _].
  eapply related_bind; [now apply related_build | intros ? ? _].
  eapply related_bind; [now apply related_convergence | intros ? ? _].
  eapply related_bind; [now apply related_rollout | intros ? ? _].
  eapply related_bind; [now apply related_health | intros ? ? _].
  eapply related_bind; [now apply related_info | intros ? ? _].
  apply related_say.
Qed.

Lemma related_dispatch args :
  related eq (dispatch w env argv0 args) (dispatch w' env argv0 args).
Proof.
  unfold dispatch.
  assert (after_check : forall m m' : Sh unit,
            related eq m m' ->
            related eq (check_prerequisites w env ;; m)
                       (check_prerequisites w' env ;; m')).
  { intros m m' H. eapply related_bind;
      [now apply related_check_prerequisites | intros ? ? _; exact H]. }
  apply related_if; [exact related_main|].
  apply related_if; [now apply after_check, related_build|].
  apply related_if; [now apply after_check, related_convergence|].
  apply related_if; [now apply after_check, related_rollout|].
  apply related_if; [now apply after_check, related_health|].
  apply related_if; [now apply after_check, related_info|].
  unfold usage. related_tac.
Qed.

(** Whatever the subcommand, two worlds that differ only in what the health
    endpoints answer see the script end the same way after the same
    commands: the answers reach the terminal, never the exit status. *)
Lemma health_answers_do_not_reach_the_exit_status args :
  fst (deploy_sh w env argv0 args) = fst (deploy_sh w' env argv0 args) /\
  trace (snd (deploy_sh w env argv0 args)) = trace (snd (deploy_sh w' env argv0 args)).
Proof.
  unfold deploy_sh.
  pose proof (related_dispatch args (initial env) (initial env)
                (conj eq_refl eq_refl)) as H.
  destruct (dispatch w env argv0 args (initial env)) as [[[]|n] t],
           (dispatch w' env argv0 args (initial env)) as [[[]|n'] t'];
    try contradiction; cbn [fst snd].
  - destruct H as [_ [_ Ht]]. now split.
  - destruct H as [-> [_ Ht]]. now split.
Qed.

End HealthIsAdvisoryScript.

(** ** Health checks are advisory *)

(** C4, as the script has it: in a full deploy whose stages through the
    rollout have completed, and in which the entry-point lookups of the
    health stage and of the information stage and the [sleep 120] succeed,
    both health requests are made and the process ends with status 0
    whatever they answer.  Each failed request prints one warning, no
    error line is printed after the rollout, and in any world that differs
    only in what the health requests answer the process ends with status 0
    as well. *)
Theorem C4_health_failures_do_not_fail_the_deploy w env argv0 s :
  stages_through_rollout w env (initial env) = (Done tt, s) ->
  rc (respond w (trace s) (alb_lookup env)) = 0 ->
  rc (respond w (trace s ++ [alb_lookup env]) (sleep 120)) = 0 ->
  rc (respond w (trace s ++ health_commands w env (trace s)) (alb_lookup env)) = 0 ->
  let lookup := respond w (trace s) (alb_lookup env) in
  let alb := strip_trailing_newlines (stdout lookup) in
  let slept := respond w (trace s ++ [alb_lookup env])%list (sleep 120) in
  let to_frontend := curl_s_f (frontend_health_url alb) in
  let to_backend := curl_s_f (backend_health_url alb) in
  let frontend := respond w (trace s ++ [alb_lookup env; sleep 120])%list to_frontend in
  let backend :=
    respond w (trace s ++ [alb_lookup env; sleep 120; to_frontend])%list to_backend in
  let again :=
    respond w (trace s ++ health_commands w env (trace s))%list (alb_lookup env) in
  let added :=
    (health_report lookup slept frontend backend ++
     Info "Getting deployment information..." ::
     CmdErr (stderr again) ::
     deployment_banner env (strip_trailing_newlines (stdout again)) ++
     [Info "Deployment completed successfully!"])%list in
  let result := deploy_sh w env argv0 ["deploy"] in
  exit_status (fst result) = 0 /\
  trace (snd result) =
    (trace s ++ health_commands w env (trace s) ++ [alb_lookup env])%list /\
  terminal (snd result) = (terminal s ++ added)%list /\
  existsb is_error_line added = false /\
  (forall w', same_but_health w w' ->
     exit_status (fst (deploy_sh w' env argv0 ["deploy"])) = 0).
Proof.
  intros Hs Ha Hz Hg. cbv zeta.
  assert (Hmain : deploy_sh w env argv0 ["deploy"] = main w env (initial env))
    by reflexivity.
  assert (E : main w env (initial env) =
              (Done tt,
               {| AWS_ACCOUNT_ID := AWS_ACCOUNT_ID s;
                  trace := trace s ++ health_commands w env (trace s) ++ [alb_lookup env];
                  terminal := terminal s ++
                    health_report (respond w (trace s) (alb_lookup env))
                      (respond w (trace s ++ [alb_lookup env]) (sleep 120))
                      (respond w (trace s ++ [alb_lookup env; sleep 120])
                         (curl_s_f (frontend_health_url
                            (strip_trailing_newlines
                               (stdout (respond w (trace s) (alb_lookup env)))))))
                      (respond w (trace s ++
                         [alb_lookup env; sleep 120;
                          curl_s_f (frontend_health_url
                            (strip_trailing_newlines
                               (stdout (respond w (trace s) (alb_lookup env)))))])
                         (curl_s_f (backend_health_url
                            (strip_trailing_newlines
                               (stdout (respond w (trace s) (alb_lookup env))))))) ++
                    Info "Getting deployment information..." ::
                    CmdErr (stderr (respond w (trace s ++ health_commands w env (trace s))
                                      (alb_lookup env))) ::
                    deployment_banner env (strip_trailing_newlines (stdout
                      (respond w (trace s ++ health_commands w env (trace s))
                         (alb_lookup env)))) ++
                    [Info "Deployment completed successfully!"] |})).
  { rewrite main_after_rollout, (bind_done _ _ _ _ _ Hs).
    pose proof (health_stage_runs_once w env s) as Hh. cbv zeta in Hh.
    rewrite (status_test_passes _ Ha), (status_test_passes _ Hz) in Hh.
    rewrite (bind_done _ _ _ _ _ Hh).
    clear Hs Hh Ha Hz. destruct s as [account history lines].
    unfold get_deployment_info, deployment_banner, health_commands, alb_lookup in *.
    cbn [trace terminal AWS_ACCOUNT_ID] in *. sh_steps.
    rewrite (status_test_passes _ Hg). sh_steps.
    trace_normal. reflexivity. }
  rewrite Hmain, E. cbn [fst snd exit_status trace terminal].
  split; [reflexivity|]. split; [reflexivity|]. split; [reflexivity|]. split.
  - unfold health_report, health_verdict, deployment_banner.
    destruct (Nat.eqb (rc (respond w _ (curl_s_f (frontend_health_url _)))) 0);
      destruct (Nat.eqb (rc (respond w _ (curl_s_f (backend_health_url _)))) 0);
      reflexivity.
  - intros w' Hw.
    pose proof (related_dispatch w w' env argv0 Hw ["deploy"]
                  (initial env) (initial env) (conj eq_refl eq_refl)) as R.
    change (dispatch w env argv0 ["deploy"] (initial env))
      with (main w env (initial env)) in R.
    unfold deploy_sh. rewrite E in R.
    destruct (dispatch w' env argv0 ["deploy"] (initial env)) as [[[]|n'] t'];
      [reflexivity | contradiction].
Qed.

(** C4 as claimed fails.  In both worlds the build, the convergence and both
    rollout requests succeed.  In the first the entry-point lookup of the
    health stage fails; in the second the [sleep 120] is killed.  Either
    way [set -e] ends the deploy with the status of the failed command,
    before any health request is made. *)
Lemma C4_deploy_fails_after_accepted_rollout :
  let env := Double.operator in
  let accepted :=
    [ aws_ecs_update_service "production-cluster" "production-backend-svc" "us-east-1";
      aws_ecs_update_service "production-cluster" "production-frontend-svc" "us-east-1" ] in
  (let w := entry_point_unreadable in
   let result := deploy_sh w env "deploy.sh" ["deploy"] in
   fst (stages_through_rollout w env (initial env)) = Done tt /\
   filter is_update_service (trace (snd result)) = accepted /\
   filter is_curl (trace (snd result)) = [] /\
   exit_status (fst result) = 254) /\
  (let w := sleep_interrupted in
   let result := deploy_sh w env "deploy.sh" ["deploy"] in
   fst (stages_through_rollout w env (initial env)) = Done tt /\
   filter is_update_service (trace (snd result)) = accepted /\
   filter is_curl (trace (snd result)) = [] /\
   exit_status (fst result) = 143).
Proof. vm_compute. repeat split. Qed.

Lemma C4_witness :
  let w := Double.world Double.unhealthy in
  let env := Double.operator in
  let s := snd (stages_through_rollout w env (initial env)) in
  stages_through_rollout w env (initial env) = (Done tt, s) /\
  rc (respond w (trace s) (alb_lookup env)) = 0 /\
  rc (respond w (trace s ++ [alb_lookup env]) (sleep 120)) = 0 /\
  rc (respond w (trace s ++ health_commands w env (trace s)) (alb_lookup env)) = 0 /\
  let lookup := respond w (trace s) (alb_lookup env) in
  let alb := strip_trailing_newlines (stdout lookup) in
  let slept := respond w (trace s ++ [alb_lookup env])%list (sleep 120) in
  let to_frontend := curl_s_f (frontend_health_url alb) in
  let to_backend := curl_s_f (backend_health_url alb) in
  let frontend := respond w (trace s ++ [alb_lookup env; sleep 120])%list to_frontend in
  let backend :=
    respond w (trace s ++ [alb_lookup env; sleep 120; to_frontend])%list to_backend in
  let again :=
    respond w (trace s ++ health_commands w env (trace s))%list (alb_lookup env) in
  let added :=
    (health_report lookup slept frontend backend ++
     Info "Getting deployment information..." ::
     CmdErr (stderr again) ::
     deployment_banner env (strip_trailing_newlines (stdout again)) ++
     [Info "Deployment completed successfully!"])%list in
  let result := deploy_sh w env "deploy.sh" ["deploy"] in
  exit_status (fst result) = 0 /\
  trace (snd result) =
    (trace s ++ health_commands w env (trace s) ++ [alb_lookup env])%list /\
  terminal (snd result) = (terminal s ++ added)%list /\
  existsb is_error_line added = false /\
  (forall w', same_but_health w w' ->
     exit_status (fst (deploy_sh w' env "deploy.sh" ["deploy"])) = 0).
Proof.
  cbv zeta.
  assert (Hs : stages_through_rollout (Double.world Double.unhealthy) Double.operator
                 (initial Double.operator)
               = (Done tt, snd (stages_through_rollout (Double.world Double.unhealthy)
                                  Double.operator (initial Double.operator))))
    by (vm_compute; reflexivity).
  split; [exact Hs|].
  split; [reflexivity|]. split; [reflexivity|]. split; [reflexivity|].
  exact (C4_health_failures_do_not_fail_the_deploy
           (Double.world Double.unhealthy) Double.operator "deploy.sh" _
           Hs eq_refl eq_refl eq_refl).
Defined.

(** * The rest of the script *)

(** ** Stack convergence: the create path *)


(** X1: when the existence query fails (the stack is not there, or the
    query itself failed), the stage submits a create-stack request next and
    never an update.  If the create is rejected the run ends with its
    status and nothing is awaited; otherwise the stage waits for
    stack-create-complete and ends the way that wait does. *)
Theorem absent_stack_is_created_then_awaited w env s :
  rc (respond w (trace s) (describe_stack env)) <> 0 ->
  let create := create_request env (AWS_ACCOUNT_ID s) in
  let created := respond w (trace s ++ [describe_stack env])%list create in
  let awaited :=
    respond w (trace s ++ [describe_stack env; create])%list (wait_create_complete env) in
  let result := deploy_infrastructure w env s in
  fst result =
    (if Nat.eqb (rc created) 0 then outcome_of awaited else Exited (rc created)) /\
  trace (snd result) =
    (trace s ++ describe_stack env :: create ::
       (if Nat.eqb (rc created) 0 then [wait_create_complete env] else []))%list.
Proof.
  destruct s as [account history lines]. cbn [trace AWS_ACCOUNT_ID].
  intros Hd. unfold deploy_infrastructure, outcome_of. sh_steps.
  rewrite (status_test_fails _ Hd). sh_steps.
  fold (create_request env account). fold (wait_create_complete env).
  destruct (Nat.eqb (rc (respond w _ (create_request env account))) 0); sh_steps.
  - trace_normal.
    destruct (Nat.eqb (rc (respond w _ (wait_create_complete env))) 0);
      sh_steps; trace_normal; split; reflexivity.
  - trace_normal. split; reflexivity.
Qed.

Lemma X1_witness :
  rc (respond (Double.world absent_stack) (trace (initial Double.operator))
        (describe_stack Double.operator)) <> 0 /\
  fst (deploy_infrastructure (Double.world absent_stack) Double.operator
         (initial Double.operator)) = Done tt /\
  trace (snd (deploy_infrastructure (Double.world absent_stack) Double.operator
                (initial Double.operator)))
  = [ describe_stack Double.operator;
      create_request Double.operator "123456789012";
      wait_create_complete Double.operator ].
Proof.
  assert (H : rc (respond (Double.world absent_stack) (trace (initial Double.operator))
                    (describe_stack Double.operator)) <> 0) by discriminate.
  split; [exact H|].
  exact (absent_stack_is_created_then_awaited
           (Double.world absent_stack) Double.operator (initial Double.operator) H).
Defined.

Lemma convergence_trace_shape w env s :
  exists submission rest,
    trace (snd (deploy_infrastructure w env s)) =
      (trace s ++ describe_stack env :: submission :: rest)%list /\
    (submission = update_request env (AWS_ACCOUNT_ID s) \/
     submission = create_request env (AWS_ACCOUNT_ID s)) /\
    existsb is_stack_submission rest = false /\
    (length rest <= 1)%nat.
Proof.
  destruct s as [account history lines]. cbn [trace AWS_ACCOUNT_ID].
  unfold deploy_infrastructure. sh_steps.
  fold (update_request env account). fold (create_request env account).
  destruct (Nat.eqb (rc (respond w history _)) 0); sh_steps.
  - exists (update_request env account).
    destruct (contains no_updates_marker _); sh_steps.
    + exists []. trace_normal. repeat split; auto.
    + destruct (contains error_marker _); sh_steps.
      * exists []. trace_normal. repeat split; auto.
      * exists [wait_update_complete env].
        destruct (Nat.eqb (rc (respond w _ _)) 0); sh_steps; trace_normal;
          repeat split; auto.
  - exists (create_request env account).
    destruct (Nat.eqb (rc (respond w _ (create_request env account))) 0); sh_steps.
    + exists [wait_create_complete env].
      destruct (Nat.eqb (rc (respond w _ _)) 0); sh_steps; trace_normal;
        repeat split; auto.
    + exists []. trace_normal. repeat split; auto.
Qed.

(** X2: whatever the world answers, one run of the convergence stage
    submits exactly one request to the stack, an update or a create for the
    account of the shell, right after the existence query; at most one more
    command follows (the wait), and it is not a submission. *)
Theorem convergence_submits_exactly_once w env s :
  exists submission rest,
    trace (snd (deploy_infrastructure w env s)) =
      (trace s ++ describe_stack env :: submission :: rest)%list /\
    (submission = update_request env (AWS_ACCOUNT_ID s) \/
     submission = create_request env (AWS_ACCOUNT_ID s)) /\
    existsb is_stack_submission rest = false /\
    (length rest <= 1)%nat.
Proof. exact (convergence_trace_shape w env s). Qed.

(** ** Stack convergence: a failure that prints nothing *)

Section SilentFailure.

Lemma occurs_append c : forall s t, occurs c (s ++ t) = occurs c s || occurs c t.
Proof.
  induction s as [|d s IH]; intros t; [reflexivity|].
  simpl. now rewrite IH, orb_assoc.
Qed.

Lemma occurs_strip c : forall s,
  occurs c s = false -> occurs c (strip_trailing_newlines s) = false.
Proof.
  induction s as [|d s IH]; intros H; [reflexivity|].
  cbn [occurs] in H. apply orb_false_iff in H as [Hd Hs].
  specialize (IH Hs). cbn [strip_trailing_newlines].
  destruct (strip_trailing_newlines s) as [|e r].
  - destruct (is_newline d); cbn [occurs]; [reflexivity | now rewrite Hd].
  - cbn [occurs] in *. now rewrite Hd, IH.
Qed.

Lemma prefix_needs_head c m : forall s,
  occurs c s = false -> String.prefix (String c m) s = false.
Proof.
  intros [|d s] H; [reflexivity|].
  cbn [occurs] in H. apply orb_false_iff in H as [Hd _].
  simpl. destruct (ascii_dec c d) as [->|]; [|reflexivity].
  now rewrite Ascii.eqb_refl in Hd.
Qed.

Lemma contains_needs_head c m : forall s,
  occurs c s = false -> contains (String c m) s = false.
Proof.
  induction s as [|d s IH]; intros H.
  - reflexivity.
  - cbn [contains]. rewrite (prefix_needs_head c m _ H).
    cbn [occurs] in H. apply orb_false_iff in H as [_ Hs].
    now rewrite (IH Hs).
Qed.

Lemma no_letter_in_digits c (d : Decimal.uint) :
  (forall k, In k ["0"; "1"; "2"; "3"; "4"; "5"; "6"; "7"; "8"; "9"]%char ->
             Ascii.eqb c k = false) ->
  occurs c (NilEmpty.string_of_uint d) = false.
Proof.
  intros H. induction d; cbn [NilEmpty.string_of_uint occurs];
    [reflexivity | ..]; rewrite IHd, H; try reflexivity; cbn; tauto.
Qed.

Lemma silent_answer_has_no_marker (r : Resp) c m :
  stdout r = EmptyString -> stderr r = EmptyString ->
  Ascii.eqb c "010"%char = false ->
  (forall k, In k ["0"; "1"; "2"; "3"; "4"; "5"; "6"; "7"; "8"; "9"]%char ->
             Ascii.eqb c k = false) ->
  contains (String c m) (captured_text r) = false.
Proof.
  intros Ho He Hn Hd. apply contains_needs_head. unfold captured_text.
  apply occurs_strip. rewrite Ho, He. cbn [append].
  destruct (Nat.eqb (rc r) 0); [reflexivity|].
  unfold decimal, newline. rewrite occurs_append, (no_letter_in_digits _ _ Hd).
  cbn [occurs orb]. now rewrite Hn.
Qed.

End SilentFailure.

(** X18: an update-stack answer that prints nothing, on either stream, is
    never classified as an error, whatever its status: the digits that
    [echo $?] appends hold neither marker.  The stage goes on to wait for
    stack-update-complete and ends the way that wait does. *)
Theorem silent_update_answer_is_taken_as_accepted w env s :
  rc (respond w (trace s) (describe_stack env)) = 0 ->
  let update := update_request env (AWS_ACCOUNT_ID s) in
  let answer := respond w (trace s ++ [describe_stack env])%list update in
  stdout answer = EmptyString ->
  stderr answer = EmptyString ->
  let awaited :=
    respond w (trace s ++ [describe_stack env; update])%list (wait_update_complete env) in
  let result := deploy_infrastructure w env s in
  fst result = outcome_of awaited /\
  trace (snd result) =
    (trace s ++ [describe_stack env; update; wait_update_complete env])%list.
Proof.
  destruct s as [account history lines]. cbn [trace AWS_ACCOUNT_ID].
  intros Hd Ho He.
  unfold deploy_infrastructure, outcome_of. sh_steps.
  rewrite (status_test_passes _ Hd). sh_steps.
  fold (update_request env account).
  unfold no_updates_marker, error_marker.
  rewrite !(silent_answer_has_no_marker _ _ _ Ho He)
    by (try reflexivity; intros k Hk; cbn in Hk;
        repeat destruct Hk as [<-|Hk]; try reflexivity; contradiction).
  sh_steps. fold (wait_update_complete env). trace_normal.
  destruct (Nat.eqb (rc (respond w _ (wait_update_complete env))) 0);
    sh_steps; trace_normal; split; reflexivity.
Qed.

Lemma X18_witness :
  rc (respond (Double.world silent_update) (trace (initial Double.operator))
        (describe_stack Double.operator)) = 0 /\
  stdout (respond (Double.world silent_update) [describe_stack Double.operator]
            (update_request Double.operator "123456789012")) = EmptyString /\
  stderr (respond (Double.world silent_update) [describe_stack Double.operator]
            (update_request Double.operator "123456789012")) = EmptyString /\
  fst (deploy_infrastructure (Double.world silent_update) Double.operator
         (initial Double.operator)) = Done tt /\
  trace (snd (deploy_infrastructure (Double.world silent_update) Double.operator
                (initial Double.operator)))
  = [ describe_stack Double.operator;
      update_request Double.operator "123456789012";
      wait_update_complete Double.operator ].
Proof.
  split; [reflexivity|]. split; [reflexivity|]. split; [reflexivity|].
  exact (silent_update_answer_is_taken_as_accepted
           (Double.world silent_update) Double.operator (initial Double.operator)
           eq_refl eq_refl eq_refl).
Defined.

(** ** Prerequisites: what a completed check guarantees *)

(** X3: a prerequisite check that completes guarantees what the later
    stages rely on: both tools were found, the database password is not
    empty, and the account in the shell is not empty.  An account that was
    given is kept and no command is issued; an account that was not given
    is the output of the one identity lookup. *)
Theorem completed_prerequisites_guarantee w env s s' :
  check_prerequisites w env s = (Done tt, s') ->
  installed w "aws" = true /\
  installed w "docker" = true /\
  DATABASE_PASSWORD env <> EmptyString /\
  AWS_ACCOUNT_ID s' <> EmptyString /\
  (if is_empty (AWS_ACCOUNT_ID s)
   then trace s' = (trace s ++ [aws_sts_get_caller_identity])%list /\
        AWS_ACCOUNT_ID s' =
          strip_trailing_newlines
            (stdout (respond w (trace s) aws_sts_get_caller_identity))
   else trace s' = trace s /\ AWS_ACCOUNT_ID s' = AWS_ACCOUNT_ID s).
Proof.
  destruct s as [account history lines]. cbn [trace AWS_ACCOUNT_ID].
  unfold check_prerequisites. sh_steps.
  destruct (installed w "aws"); sh_steps; [|discriminate].
  destruct (installed w "docker"); sh_steps; [|discriminate].
  destruct (DATABASE_PASSWORD env) as [|c password]; sh_steps; [discriminate|].
  destruct account as [|a account]; sh_steps.
  - destruct (Nat.eqb (rc (respond w history aws_sts_get_caller_identity)) 0);
      sh_steps; [|discriminate].
    destruct (strip_trailing_newlines _) as [|i id] eqn:Hid; sh_steps; [discriminate|].
    intros H. inversion H; subst; clear H. cbn [AWS_ACCOUNT_ID trace].
    repeat split; try discriminate; reflexivity.
  - intros H. inversion H; subst; clear H. cbn [AWS_ACCOUNT_ID trace].
    repeat split; try discriminate; reflexivity.
Qed.

Lemma X3_witness :
  let w := Double.world Double.converged in
  let s := initial operator_without_account in
  let s' := snd (check_prerequisites w operator_without_account s) in
  check_prerequisites w operator_without_account s = (Done tt, s') /\
  installed w "aws" = true /\
  installed w "docker" = true /\
  DATABASE_PASSWORD operator_without_account <> EmptyString /\
  AWS_ACCOUNT_ID s' <> EmptyString /\
  trace s' = [aws_sts_get_caller_identity] /\
  AWS_ACCOUNT_ID s' = "123456789012".
Proof.
  cbv zeta.
  assert (H : check_prerequisites (Double.world Double.converged)
                operator_without_account (initial operator_without_account)
              = (Done tt, snd (check_prerequisites (Double.world Double.converged)
                                 operator_without_account
                                 (initial operator_without_account))))
    by (vm_compute; reflexivity).
  split; [exact H|].
  exact (completed_prerequisites_guarantee _ _ _ _ H).
Defined.

(** ** Running a sequence under set -e *)

Section UntilFirstFailure.

Variable w : World.
Variable checked : Cmd -> bool.

Lemma until_first_failure_prefix sequence : forall h,
  exists rest,
    sequence = (fst (until_first_failure w checked h sequence) ++ rest)%list /\
    (snd (until_first_failure w checked h sequence) = Done tt -> rest = []).
Proof.
  induction sequence as [|c tail IH]; intros h; cbn [until_first_failure].
  - exists []. split; reflexivity.
  - destruct (checked c && negb (Nat.eqb (rc (respond w h c)) 0)).
    + exists tail. split; [reflexivity | discriminate].
    + destruct (IH (h ++ [c])%list) as (rest & E & D).
      destruct (until_first_failure w checked (h ++ [c]) tail) as [issued outcome].
      exists rest. cbn [fst snd app] in *. split; [now rewrite <- E | exact D].
Qed.

Lemma until_first_failure_completed sequence h :
  snd (until_first_failure w checked h sequence) = Done tt ->
  fst (until_first_failure w checked h sequence) = sequence.
Proof.
  intros D. destruct (until_first_failure_prefix sequence h) as (rest & E & R).
  rewrite (R D), app_nil_r in E. now symmetry.
Qed.

(** A run that ends with a status ends on a checked command that answered
    this status. *)
Lemma until_first_failure_exited sequence : forall h n,
  snd (until_first_failure w checked h sequence) = Exited n ->
  n <> 0 /\
  exists before c,
    fst (until_first_failure w checked h sequence) = (before ++ [c])%list /\
    checked c = true /\
    rc (respond w (h ++ before) c) = n.
Proof.
  induction sequence as [|c tail IH]; intros h n; cbn [until_first_failure].
  - discriminate.
  - destruct (checked c) eqn:Hc; cbn [andb].
    + destruct (Nat.eqb (rc (respond w h c)) 0) eqn:Hr; cbn [negb].
      * specialize (IH (h ++ [c])%list n).
        destruct (until_first_failure w checked (h ++ [c]) tail) as [issued outcome].
        cbn [fst snd] in *. intros X.
        destruct (IH X) as (N & before & c' & E & C & R).
        split; [exact N|]. exists (c :: before), c'.
        rewrite E, <- app_assoc in *. repeat split; assumption.
      * cbn [fst snd]. intros [= <-]. apply Nat.eqb_neq in Hr.
        split; [exact Hr|]. exists [], c. rewrite app_nil_r. repeat split. exact Hc.
    + specialize (IH (h ++ [c])%list n).
      destruct (until_first_failure w checked (h ++ [c]) tail) as [issued outcome].
      cbn [fst snd] in *. intros X.
      destruct (IH X) as (N & before & c' & E & C & R).
      split; [exact N|]. exists (c :: before), c'.
      rewrite E, <- app_assoc in *. repeat split; assumption.
Qed.

Lemma until_first_failure_app first : forall h second,
  until_first_failure w checked h (first ++ second) =
  match snd (until_first_failure w checked h first) with
  | Done _ =>
      ((first ++ fst (until_first_failure w checked (h ++ first) second))%list,
       snd (until_first_failure w checked (h ++ first) second))
  | Exited _ => until_first_failure w checked h first
  end.
Proof.
  induction first as [|c tail IH]; intros h second; cbn [until_first_failure app].
  - rewrite app_nil_r. now destruct (until_first_failure w checked h second).
  - destruct (checked c && negb (Nat.eqb (rc (respond w h c)) 0)); [reflexivity|].
    rewrite IH.
    destruct (until_first_failure w checked (h ++ [c]) tail) as [issued [[]|n]];
      cbn [fst snd]; [|reflexivity].
    now rewrite <- app_assoc.
Qed.

Lemma until_first_failure_strict sequence : forall h,
  (forall c, In c sequence -> checked c = false -> tolerated c = true) ->
  strict w h (fst (until_first_failure w checked h sequence))
    (has_exited (snd (until_first_failure w checked h sequence))).
Proof.
  induction sequence as [|c tail IH]; intros h T; cbn [until_first_failure].
  - exact I.
  - destruct (checked c) eqn:Hc; cbn [andb].
    + destruct (Nat.eqb (rc (respond w h c)) 0) eqn:Hr; cbn [negb].
      * specialize (IH (h ++ [c])%list (fun c' H => T c' (or_intror H))).
        destruct (until_first_failure w checked (h ++ [c]) tail) as [issued outcome].
        cbn [fst snd strict] in *. split; [|exact IH].
        intros F. apply Nat.eqb_eq in Hr. contradiction.
      * cbn. split; [|exact I]. intros _. right. split; reflexivity.
    + specialize (IH (h ++ [c])%list (fun c' H => T c' (or_intror H))).
      destruct (until_first_failure w checked (h ++ [c]) tail) as [issued outcome].
      cbn [fst snd strict] in *. split; [|exact IH].
      intros _. left. exact (T c (or_introl eq_refl) Hc).
Qed.

(** *** Statements of the script that run as such a sequence *)

Lemma follows_say l : follows w checked (say l) (fun _ _ => []).
Proof. intros s. repeat split. cbn. now rewrite app_nil_r. Qed.

Lemma follows_run c : checked c = true -> follows w checked (run w c) (fun _ _ => [c]).
Proof.
  intros Hc [account history lines]. cbv zeta. cbn [until_first_failure trace AWS_ACCOUNT_ID].
  rewrite Hc. unfold run. sh_steps.
  destruct (Nat.eqb (rc (respond w history c)) 0); repeat split.
Qed.

Lemma follows_or_else c1 c2 :
  checked c1 = false -> checked c2 = true ->
  follows w checked (or_else w c1 c2)
    (fun h _ => c1 :: (if Nat.eqb (rc (respond w h c1)) 0 then [] else [c2])).
Proof.
  intros H1 H2 [account history lines]. cbv zeta.
  cbn [until_first_failure trace AWS_ACCOUNT_ID]. rewrite H1.
  unfold or_else, run. sh_steps.
  destruct (Nat.eqb (rc (respond w history c1)) 0); sh_steps;
    cbn [until_first_failure andb fst snd]; [repeat split|].
  rewrite H2.
  destruct (Nat.eqb (rc (respond w (history ++ [c1]) c2)) 0);
    cbn; rewrite <- ?app_assoc; repeat split.
Qed.

Lemma follows_pipe c1 c2 :
  checked c1 = false -> (forall text, checked (c2 text) = true) ->
  follows w checked (pipe w c1 c2) (fun h _ => [c1; c2 (stdout (respond w h c1))]).
Proof.
  intros H1 H2 [account history lines]. cbv zeta.
  cbn [until_first_failure trace AWS_ACCOUNT_ID]. rewrite H1, H2.
  unfold pipe, run. sh_steps.
  destruct (Nat.eqb (rc (respond w (history ++ [c1]) _)) 0);
    cbn; rewrite <- ?app_assoc; repeat split.
Qed.

Lemma follows_sequence (m k : Sh unit) first second :
  follows w checked m first -> follows w checked k second ->
  follows w checked (m ;; k)
    (fun h account => (first h account ++ second (h ++ first h account) account)%list).
Proof.
  intros Hm Hk s. cbv zeta. unfold bind.
  destruct (Hm s) as (O & T & A). cbv zeta in O, T, A.
  rewrite until_first_failure_app.
  destruct (m s) as [[[]|n] s1]; cbn [fst snd] in *; rewrite <- O.
  - rewrite (until_first_failure_completed _ _ (eq_sym O)) in T.
    destruct (Hk s1) as (O' & T' & A'). cbv zeta in O', T', A'.
    rewrite T, A in *. cbn [fst snd].
    split; [exact O'|]. split; [|exact A'].
    now rewrite T', app_assoc.
  - repeat split; assumption.
Qed.

Lemma follows_account (k : string -> Sh unit) rest :
  (forall account, follows w checked (k account) (rest account)) ->
  follows w checked (account <- get_AWS_ACCOUNT_ID ;; k account)
    (fun h account => rest account h account).
Proof. intros Hk s. exact (Hk (AWS_ACCOUNT_ID s) s). Qed.

Lemma capture_then {A} c (k : string -> Sh A) s :
  (text <- capture w c ;; k text) s =
  let answer := respond w (trace s) c in
  let s1 := {| AWS_ACCOUNT_ID := AWS_ACCOUNT_ID s;
               trace := trace s ++ [c];
               terminal := terminal s ++ [CmdErr (stderr answer)] |} in
  if Nat.eqb (rc answer) 0
  then k (strip_trailing_newlines (stdout answer)) s1
  else (Exited (rc answer), s1).
Proof.
  destruct s as [account history lines]. cbv zeta. cbn [trace terminal AWS_ACCOUNT_ID].
  unfold capture. sh_steps.
  destruct (Nat.eqb (rc (respond w history c)) 0); reflexivity.
Qed.

Lemma follows_capture c (k : string -> Sh unit) rest :
  checked c = true ->
  (forall text, follows w checked (k text) (rest text)) ->
  follows w checked (text <- capture w c ;; k text)
    (fun h account =>
       c :: rest (strip_trailing_newlines (stdout (respond w h c))) (h ++ [c])%list account).
Proof.
  intros Hc Hk s. cbv zeta. rewrite capture_then. cbv zeta.
  cbn [until_first_failure]. rewrite Hc. cbn [andb].
  destruct (Nat.eqb (rc (respond w (trace s) c)) 0); cbn [negb]; [|repeat split].
  match goal with
  | |- context [k ?text ?s1] => destruct (Hk text s1) as (O & T & A)
  end.
  cbv zeta in O, T, A. cbn [trace AWS_ACCOUNT_ID] in O, T, A.
  rewrite O, T, A.
  destruct (until_first_failure w checked (trace s ++ [c]) _) as [issued outcome].
  cbn [fst snd]. split; [reflexivity|]. split; [|reflexivity].
  now rewrite <- app_assoc.
Qed.

End UntilFirstFailure.

(** ** Build stage: it stops at the first failure *)

Ltac split_on_status w :=
  match goal with
  | |- context [Nat.eqb (rc (respond w ?h ?c)) 0] =>
      destruct (Nat.eqb (rc (respond w h c)) 0) eqn:?; sh_steps; trace_normal
  end.

Ltac follows_steps :=
  repeat first
    [ apply follows_sequence
    | apply follows_say
    | apply follows_run; reflexivity
    | apply follows_or_else; reflexivity
    | apply follows_pipe; [reflexivity | intros ?; reflexivity]
    | apply follows_account; intros ?
    | apply follows_capture; [reflexivity | intros ?] ].

Lemma build_runs_until_first_failure w env s :
  let result := build_and_push_images w env s in
  let reference :=
    until_first_failure w checked_in_build (trace s) (build_sequence w env s) in
  fst result = snd reference /\
  trace (snd result) = (trace s ++ fst reference)%list /\
  AWS_ACCOUNT_ID (snd result) = AWS_ACCOUNT_ID s.
Proof.
  assert (F : exists sequence,
             follows w checked_in_build (build_and_push_images w env) sequence /\
             sequence (trace s) (AWS_ACCOUNT_ID s) = build_sequence w env s).
  { eexists. split.
    - unfold build_and_push_images, print_status. follows_steps.
    - unfold build_sequence, repository_setup, login_build_push.
      cbn [app]. rewrite ?app_nil_r, <- ?app_assoc. cbn [app]. reflexivity. }
  destruct F as (sequence & F & E). specialize (F s). now rewrite E in F.
Qed.

Lemma build_trace_shape w env s :
  let result := build_and_push_images w env s in
  exists issued rest,
    trace (snd result) = (trace s ++ issued)%list /\
    build_sequence w env s = (issued ++ rest)%list /\
    (fst result = Done tt -> rest = []) /\
    AWS_ACCOUNT_ID (snd result) = AWS_ACCOUNT_ID s.
Proof.
  cbv zeta. destruct (build_runs_until_first_failure w env s) as (O & T & A).
  cbv zeta in O, T, A.
  destruct (until_first_failure_prefix w checked_in_build
              (build_sequence w env s) (trace s)) as (rest & E & D).
  exists (fst (until_first_failure w checked_in_build (trace s) (build_sequence w env s))),
         rest.
  rewrite O. repeat split; assumption.
Qed.

(** X4: whatever the world answers, the build stage runs one fixed sequence
    (repository queries with a create where the query failed, login, two
    builds, then tag and push for the backend and for the frontend) the
    way [set -e] runs it: up to and including the first checked command
    that fails, with which the stage ends, and to the end otherwise.  So a
    stage that ends with a status ended on a checked command that answered
    this status, which is not 0, and issued nothing after it; a stage that
    completes has issued the whole sequence, in particular nothing is
    pushed before both images are built.  The account in the shell is left
    as it was. *)
Theorem build_stops_at_first_failure w env s :
  let result := build_and_push_images w env s in
  let reference :=
    until_first_failure w checked_in_build (trace s) (build_sequence w env s) in
  fst result = snd reference /\
  trace (snd result) = (trace s ++ fst reference)%list /\
  AWS_ACCOUNT_ID (snd result) = AWS_ACCOUNT_ID s /\
  (fst result = Done tt ->
   trace (snd result) = (trace s ++ build_sequence w env s)%list) /\
  (forall n, fst result = Exited n ->
     n <> 0 /\
     exists before c,
       trace (snd result) = (trace s ++ before ++ [c])%list /\
       checked_in_build c = true /\
       rc (respond w (trace s ++ before) c) = n).
Proof.
  cbv zeta. destruct (build_runs_until_first_failure w env s) as (O & T & A).
  cbv zeta in O, T, A. rewrite O, T.
  split; [reflexivity|]. split; [reflexivity|]. split; [exact A|]. split.
  - intros D. now rewrite (until_first_failure_completed _ _ _ _ D).
  - intros n X.
    destruct (until_first_failure_exited _ _ _ _ _ X) as (N & before & c & E & C & R).
    split; [exact N|]. exists before, c. rewrite E. repeat split; assumption.
Qed.

Lemma completed_build_pushed_both w env s s1 :
  build_and_push_images w env s = (Done tt, s1) ->
  AWS_ACCOUNT_ID s1 = AWS_ACCOUNT_ID s /\
  (exists before, trace s1 = (trace s ++ before ++
     login_build_push env (AWS_ACCOUNT_ID s)
       (stdout (respond w (trace s ++ before)
                  (aws_ecr_get_login_password (AWS_REGION env)))))%list).
Proof.
  intros H. destruct (build_trace_shape w env s) as (issued & rest & T & B & D & A).
  cbv zeta in *. rewrite H in *. cbn [fst snd] in *.
  rewrite (D eq_refl), app_nil_r in B. subst issued.
  split; [exact A|].
  unfold build_sequence in T.
  exists (repository_setup w (AWS_REGION env) "blog-backend" (trace s) ++
          repository_setup w (AWS_REGION env) "blog-frontend"
            (trace s ++ repository_setup w (AWS_REGION env) "blog-backend" (trace s)))%list.
  rewrite T. now rewrite <- !app_assoc.
Qed.

Lemma image_of_repository (r name : string) :
  r ++ name ++ ":latest" = (r ++ name) ++ ":latest".
Proof. apply append_assoc. Qed.

(** X5: after a build stage that completed, the shell holds the account
    it started with, and the two images it pushed are the ones the next
    stack request names: the BackendRepositoryUri and FrontendRepositoryUri
    parameters of the request for that account, each with the tag latest. *)
Theorem pushed_images_are_the_ones_the_stack_references w env s s1 :
  build_and_push_images w env s = (Done tt, s1) ->
  let req := stack_request env (AWS_ACCOUNT_ID s1) in
  exists backend frontend,
    parameter "BackendRepositoryUri" (req_parameters req) = Some backend /\
    parameter "FrontendRepositoryUri" (req_parameters req) = Some frontend /\
    In (docker_push (backend ++ ":latest")) (trace s1) /\
    In (docker_push (frontend ++ ":latest")) (trace s1).
Proof.
  intros H. destruct (completed_build_pushed_both w env s s1 H) as (A & before & T).
  cbv zeta. rewrite A, T.
  exists (registry env (AWS_ACCOUNT_ID s) ++ "/blog-backend"),
         (registry env (AWS_ACCOUNT_ID s) ++ "/blog-frontend").
  split; [reflexivity|]. split; [reflexivity|].
  rewrite <- !image_of_repository.
  split; apply in_or_app; right; apply in_or_app; right;
    unfold login_build_push; cbn; tauto.
Qed.

Lemma X5_witness :
  let w := Double.world Double.converged in
  let s1 := snd (build_and_push_images w Double.operator (initial Double.operator)) in
  build_and_push_images w Double.operator (initial Double.operator) = (Done tt, s1) /\
  exists backend frontend,
    parameter "BackendRepositoryUri"
      (req_parameters (stack_request Double.operator (AWS_ACCOUNT_ID s1))) = Some backend /\
    parameter "FrontendRepositoryUri"
      (req_parameters (stack_request Double.operator (AWS_ACCOUNT_ID s1))) = Some frontend /\
    In (docker_push (backend ++ ":latest")) (trace s1) /\
    In (docker_push (frontend ++ ":latest")) (trace s1).
Proof.
  cbv zeta.
  assert (H : build_and_push_images (Double.world Double.converged) Double.operator
                (initial Double.operator)
              = (Done tt, snd (build_and_push_images (Double.world Double.converged)
                                 Double.operator (initial Double.operator))))
    by (vm_compute; reflexivity).
  split; [exact H|].
  exact (pushed_images_are_the_ones_the_stack_references _ _ _ _ H).
Defined.

(** ** Rollout: it stops at the first failure *)

Lemma rollout_runs_until_first_failure w env s :
  let result := deploy_application w env s in
  let reference :=
    until_first_failure w every_command (trace s) (rollout_sequence w env s) in
  fst result = snd reference /\
  trace (snd result) = (trace s ++ fst reference)%list /\
  AWS_ACCOUNT_ID (snd result) = AWS_ACCOUNT_ID s.
Proof.
  assert (F : exists sequence,
             follows w every_command (deploy_application w env) sequence /\
             sequence (trace s) (AWS_ACCOUNT_ID s) = rollout_sequence w env s).
  { eexists. split.
    - unfold deploy_application, print_status. follows_steps.
    - unfold rollout_sequence, output_lookups.
      cbn [app]. rewrite ?app_nil_r, <- ?app_assoc. cbn [app]. reflexivity. }
  destruct F as (sequence & F & E). specialize (F s). now rewrite E in F.
Qed.

Lemma rollout_trace_shape w env s :
  let result := deploy_application w env s in
  exists issued rest,
    trace (snd result) = (trace s ++ issued)%list /\
    rollout_sequence w env s = (issued ++ rest)%list /\
    (fst result = Done tt -> rest = []).
Proof.
  cbv zeta. destruct (rollout_runs_until_first_failure w env s) as (O & T & A).
  cbv zeta in O, T, A.
  destruct (until_first_failure_prefix w every_command
              (rollout_sequence w env s) (trace s)) as (rest & E & D).
  exists (fst (until_first_failure w every_command (trace s) (rollout_sequence w env s))),
         rest.
  rewrite O. repeat split; assumption.
Qed.

(** X6: whatever the world answers, the rollout runs one fixed sequence
    (the three output lookups, the backend request, the frontend request)
    the way [set -e] runs it, every command being checked: up to and
    including the first command that fails, with which the stage ends, and
    to the end otherwise.  So no replacement request follows a failed
    lookup, the frontend is not asked once the backend was refused, a stage
    that ends with a status ended on the command that answered it, and the
    names are used as the lookups printed them, empty or not. *)
Theorem rollout_stops_at_first_failure w env s :
  let result := deploy_application w env s in
  let reference :=
    until_first_failure w every_command (trace s) (rollout_sequence w env s) in
  fst result = snd reference /\
  trace (snd result) = (trace s ++ fst reference)%list /\
  (fst result = Done tt ->
   trace (snd result) = (trace s ++ rollout_sequence w env s)%list) /\
  (forall n, fst result = Exited n ->
     n <> 0 /\
     exists before c,
       trace (snd result) = (trace s ++ before ++ [c])%list /\
       rc (respond w (trace s ++ before) c) = n).
Proof.
  cbv zeta. destruct (rollout_runs_until_first_failure w env s) as (O & T & A).
  cbv zeta in O, T, A. rewrite O, T.
  split; [reflexivity|]. split; [reflexivity|]. split.
  - intros D. now rewrite (until_first_failure_completed _ _ _ _ D).
  - intros n X.
    destruct (until_first_failure_exited _ _ _ _ _ X) as (N & before & c & E & C & R).
    split; [exact N|]. exists before, c. rewrite E. split; [reflexivity | exact R].
Qed.

(** ** Deployment information *)

(** X7: the information stage makes one lookup and ends with its status.
    The banner (with the application and documentation addresses built on
    the looked-up name, the environment and the region) is printed exactly
    when the lookup succeeded; after a failed lookup nothing but the
    announcement and what the lookup wrote is on the terminal. *)
Theorem info_prints_the_banner_only_after_its_lookup w env s :
  let lookup := respond w (trace s) (alb_lookup env) in
  get_deployment_info w env s =
    (outcome_of lookup,
     {| AWS_ACCOUNT_ID := AWS_ACCOUNT_ID s;
        trace := trace s ++ [alb_lookup env];
        terminal := terminal s ++
          Info "Getting deployment information..." ::
          CmdErr (stderr lookup) ::
          (if Nat.eqb (rc lookup) 0
           then deployment_banner env (strip_trailing_newlines (stdout lookup))
           else []) |}).
Proof.
  destruct s as [account history lines]. cbv zeta.
  cbn [trace terminal AWS_ACCOUNT_ID].
  unfold get_deployment_info, outcome_of, deployment_banner, alb_lookup. sh_steps.
  destruct (Nat.eqb (rc (respond w history _)) 0); sh_steps; trace_normal; reflexivity.
Qed.

(** ** Health checks: a failed lookup *)

(** X8: when the entry-point lookup fails, the health stage ends the run
    with the status of the lookup at once: the two minutes are not waited
    and no health request is made. *)
Theorem health_lookup_failure_skips_the_checks w env s :
  rc (respond w (trace s) (alb_lookup env)) <> 0 ->
  let lookup := respond w (trace s) (alb_lookup env) in
  run_health_checks w env s =
    (Exited (rc lookup),
     {| AWS_ACCOUNT_ID := AWS_ACCOUNT_ID s;
        trace := trace s ++ [alb_lookup env];
        terminal := terminal s ++
          [Info "Running health checks..."; CmdErr (stderr lookup)] |}).
Proof.
  destruct s as [account history lines]. cbn [trace terminal AWS_ACCOUNT_ID].
  intros H. unfold run_health_checks, alb_lookup in *. sh_steps.
  rewrite (status_test_fails _ H). sh_steps. trace_normal. reflexivity.
Qed.

Lemma X8_witness :
  rc (respond (Double.world absent_stack) (trace (initial Double.operator))
        (alb_lookup Double.operator)) <> 0 /\
  run_health_checks (Double.world absent_stack) Double.operator
    (initial Double.operator) =
    (Exited 254,
     {| AWS_ACCOUNT_ID := "123456789012";
        trace := [alb_lookup Double.operator];
        terminal :=
          [ Info "Running health checks...";
            CmdErr (stderr (respond (Double.world absent_stack) []
                              (alb_lookup Double.operator))) ] |}).
Proof.
  assert (H : rc (respond (Double.world absent_stack) (trace (initial Double.operator))
                    (alb_lookup Double.operator)) <> 0) by discriminate.
  split; [exact H|].
  exact (health_lookup_failure_skips_the_checks
           (Double.world absent_stack) Double.operator (initial Double.operator) H).
Defined.

(** ** What each subcommand leaves alone *)

Section StageScopes.

Variable w : World.
Variable env : Environ.

Lemma check_prerequisites_issues P :
  P aws_sts_get_caller_identity = true ->
  only_issues P (check_prerequisites w env).
Proof.
  intros H. unfold check_prerequisites.
  repeat first
    [ apply only_bind; [|intros ?]
    | apply only_if
    | apply only_say | apply only_ret | apply only_exit | apply only_get
    | apply only_set
    | apply only_issue; exact H
    | progress unfold print_status, print_error, capture, errexit ].
Qed.

Lemma health_reads_only : only_issues reads_only (run_health_checks w env).
Proof. unfold run_health_checks. auto 50 with sh_issues. Qed.

Lemma info_reads_only : only_issues reads_only (get_deployment_info w env).
Proof. unfold get_deployment_info. auto 50 with sh_issues. Qed.

Lemma build_outside_stack_and_services :
  only_issues outside_stack_and_services (build_and_push_images w env).
Proof. unfold build_and_push_images. auto 100 with sh_issues. Qed.

Lemma convergence_outside_registry_and_services :
  only_issues outside_registry_and_services (deploy_infrastructure w env).
Proof. unfold deploy_infrastructure. auto 50 with sh_issues. Qed.

Lemma rollout_outside_registry_and_submissions :
  only_issues outside_registry_and_submissions (deploy_application w env).
Proof. unfold deploy_application. auto 50 with sh_issues. Qed.

(** From the initial shell, what a subcommand issued is what its stages
    added. *)
Lemma subcommand_scope (bad : Cmd -> bool) (stage : Sh unit) :
  bad aws_sts_get_caller_identity = false ->
  only_issues (fun c => negb (bad c)) stage ->
  existsb bad (trace (snd ((check_prerequisites w env ;; stage) (initial env)))) = false.
Proof.
  intros Hsts Hstage.
  assert (H : only_issues (fun c => negb (bad c)) (check_prerequisites w env ;; stage)).
  { apply only_bind; [|intros _; exact Hstage].
    apply check_prerequisites_issues. now rewrite Hsts. }
  destruct (H (initial env)) as (added & T & F).
  rewrite T. cbn [initial trace app].
  now apply forallb_not_existsb.
Qed.

End StageScopes.

(** X9: the [health] and [info] subcommands never request a change:
    whatever the world answers, they issue no create-repository, push,
    create-stack, update-stack or update-service. *)
Theorem health_and_info_never_mutate w env argv0 :
  existsb mutates (trace (snd (deploy_sh w env argv0 ["health"]))) = false /\
  existsb mutates (trace (snd (deploy_sh w env argv0 ["info"]))) = false.
Proof.
  split.
  - exact (subcommand_scope w env mutates _ eq_refl (health_reads_only w env)).
  - exact (subcommand_scope w env mutates _ eq_refl (info_reads_only w env)).
Qed.

(** X10: the single-stage subcommands stay within their stage, whatever
    the world answers: [build] issues no CloudFormation command and no
    update-service; [infrastructure] issues no registry or Docker command
    and no update-service; [application] issues no registry or Docker
    command and no create-stack or update-stack. *)
Theorem single_stage_subcommands_stay_in_scope w env argv0 :
  existsb (fun c => is_cloudformation c || is_update_service c)
    (trace (snd (deploy_sh w env argv0 ["build"]))) = false /\
  existsb (fun c => is_registry_or_docker c || is_update_service c)
    (trace (snd (deploy_sh w env argv0 ["infrastructure"]))) = false /\
  existsb (fun c => is_registry_or_docker c || is_stack_submission c)
    (trace (snd (deploy_sh w env argv0 ["application"]))) = false.
Proof.
  split; [|split].
  - exact (subcommand_scope w env _ _ eq_refl
             (build_outside_stack_and_services w env)).
  - exact (subcommand_scope w env _ _ eq_refl
             (convergence_outside_registry_and_services w env)).
  - exact (subcommand_scope w env _ _ eq_refl
             (rollout_outside_registry_and_submissions w env)).
Qed.

(** ** An unknown subcommand *)

(** X11: a first argument that is not empty and not one of the six
    subcommands gets the usage text and status 1; further arguments are
    ignored, the prerequisites are not even checked and no command is
    issued. *)
Theorem unknown_subcommand_prints_usage w env argv0 sub more :
  sub <> EmptyString ->
  ~ In sub known_subcommands ->
  deploy_sh w env argv0 (sub :: more) =
    (Exited 1,
     {| AWS_ACCOUNT_ID := expand (env_AWS_ACCOUNT_ID env);
        trace := [];
        terminal := usage_lines argv0 |}).
Proof.
  intros Hne Hin. unfold deploy_sh, dispatch, subcommand.
  cbn [nth_error or_default].
  destruct sub as [|c sub]; [congruence|]. cbn [is_empty].
  assert (E : forall k, In k known_subcommands -> String.eqb (String c sub) k = false).
  { intros k Hk. apply String.eqb_neq. intros H. apply Hin. now rewrite H. }
  rewrite !E by (cbn; tauto).
  reflexivity.
Qed.

Lemma X11_witness :
  "rollback" <> EmptyString /\
  ~ In "rollback" known_subcommands /\
  deploy_sh (Double.world Double.no_docker) Double.operator "deploy.sh"
    ["rollback"; "now"] =
    (Exited 1,
     {| AWS_ACCOUNT_ID := "123456789012";
        trace := [];
        terminal := usage_lines "deploy.sh" |}).
Proof.
  assert (H1 : "rollback" <> EmptyString) by discriminate.
  assert (H2 : ~ In "rollback" known_subcommands).
  { cbn. intros H. repeat destruct H as [H|H]; try discriminate H. exact H. }
  split; [exact H1|]. split; [exact H2|].
  exact (unknown_subcommand_prints_usage (Double.world Double.no_docker)
           Double.operator "deploy.sh" "rollback" ["now"] H1 H2).
Defined.

(** ** The full deploy: images before the stack *)

Lemma bind_done_inv {A B} (m : Sh A) (k : A -> Sh B) s b s' :
  bind m k s = (Done b, s') ->
  exists a s1, m s = (Done a, s1) /\ k a s1 = (Done b, s').
Proof.
  unfold bind. destruct (m s) as [[a|n] s1]; [|discriminate].
  intros H. now exists a, s1.
Qed.

Lemma no_submission_through_build w env :
  only_issues not_stack_submission (stages_through_build w env).
Proof.
  unfold stages_through_build.
  apply only_bind; [apply only_say | intros _].
  apply only_bind; [now apply check_prerequisites_issues | intros _].
  unfold build_and_push_images. auto 100 with sh_issues.
Qed.

Lemma no_submission_after_convergence w env :
  only_issues not_stack_submission
    (deploy_application w env ;;
     run_health_checks w env ;;
     get_deployment_info w env ;;
     print_status "Deployment completed successfully!").
Proof.
  unfold deploy_application, run_health_checks, get_deployment_info.
  auto 100 with sh_issues.
Qed.

Lemma main_after_build w env s :
  main w env s =
  (stages_through_build w env ;;
   deploy_infrastructure w env ;;
   deploy_application w env ;;
   run_health_checks w env ;;
   get_deployment_info w env ;;
   print_status "Deployment completed successfully!") s.
Proof.
  unfold main, stages_through_build.
  repeat (rewrite bind_assoc; apply bind_agree; [reflexivity|]; intros _ ?).
  reflexivity.
Qed.

(** From the convergence stage on, the one submission is all there is. *)
Lemma submission_after_build w env t :
  exists submission rest,
    trace (snd ((deploy_infrastructure w env ;;
                 deploy_application w env ;;
                 run_health_checks w env ;;
                 get_deployment_info w env ;;
                 print_status "Deployment completed successfully!") t)) =
      (trace t ++ describe_stack env :: submission :: rest)%list /\
    (submission = update_request env (AWS_ACCOUNT_ID t) \/
     submission = create_request env (AWS_ACCOUNT_ID t)) /\
    existsb is_stack_submission rest = false.
Proof.
  destruct (convergence_trace_shape w env t) as (submission & rest & T & S & F & _).
  exists submission. unfold bind at 1.
  destruct (deploy_infrastructure w env t) as [[[]|n] t1]; cbn [snd] in T.
  - destruct (no_submission_after_convergence w env t1) as (added & T' & F').
    exists (rest ++ added)%list. rewrite T', T. split; [|split; [exact S|]].
    + rewrite <- app_assoc. reflexivity.
    + rewrite existsb_app, F. cbn [orb]. now apply forallb_not_existsb.
  - exists rest. cbn [snd]. now repeat split.
Qed.

(** X12: in a full deploy, every create-stack or update-stack request
    comes after the build: the history splits into a part without any
    submission, in which both images the request names (its
    BackendRepositoryUri and FrontendRepositoryUri parameters, with the tag
    latest) were pushed, and the rest. *)
Theorem deploy_submits_only_pushed_images w env argv0 req :
  let issued := trace (snd (deploy_sh w env argv0 ["deploy"])) in
  In (aws_cloudformation_update_stack req) issued \/
  In (aws_cloudformation_create_stack req) issued ->
  exists before after backend frontend,
    issued = (before ++ after)%list /\
    existsb is_stack_submission before = false /\
    parameter "BackendRepositoryUri" (req_parameters req) = Some backend /\
    parameter "FrontendRepositoryUri" (req_parameters req) = Some frontend /\
    In (docker_push (backend ++ ":latest")) before /\
    In (docker_push (frontend ++ ":latest")) before.
Proof.
  cbv zeta.
  change (deploy_sh w env argv0 ["deploy"]) with (main w env (initial env)).
  rewrite main_after_build.
  destruct (no_submission_through_build w env (initial env)) as (built & T & F).
  cbn [initial trace app] in T. apply forallb_not_existsb in F.
  assert (clean : forall c, is_stack_submission c = true -> ~ In c built).
  { intros c Hc Hin.
    assert (E : existsb is_stack_submission built = true)
      by (apply existsb_exists; now exists c).
    congruence. }
  destruct (stages_through_build w env (initial env)) as [[[]|n] t] eqn:E.
  - rewrite (bind_done _ _ _ _ _ E). cbn [snd] in T.
    destruct (submission_after_build w env t) as (submission & rest & T' & S & F').
    rewrite T', T. intros H.
    assert (R : req = stack_request env (AWS_ACCOUNT_ID t)).
    { assert (Hrest : forall c, is_stack_submission c = true -> ~ In c rest).
      { intros c Hc Hin.
        assert (X : existsb is_stack_submission rest = true)
          by (apply existsb_exists; now exists c).
        congruence. }
      destruct H as [H|H]; apply in_app_or in H as [H|H];
        try (now exfalso; eapply clean; [|exact H]);
        destruct H as [H|[H|H]]; try discriminate;
        try (now exfalso; eapply Hrest; [|exact H]);
        destruct S as [-> | ->]; unfold update_request, create_request in H;
        congruence. }
    unfold stages_through_build in E.
    apply bind_done_inv in E as (? & s0 & _ & E).
    apply bind_done_inv in E as (? & s1 & _ & E).
    destruct (completed_build_pushed_both w env s1 t E) as (A & before & B).
    exists built, (describe_stack env :: submission :: rest).
    exists (registry env (AWS_ACCOUNT_ID t) ++ "/blog-backend"),
           (registry env (AWS_ACCOUNT_ID t) ++ "/blog-frontend").
    split; [reflexivity|]. split; [exact F|]. subst req.
    split; [reflexivity|]. split; [reflexivity|].
    rewrite <- T, B, A, <- !image_of_repository.
    split; apply in_or_app; right; apply in_or_app; right;
      unfold login_build_push; cbn; tauto.
  - rewrite (bind_exited _ _ _ _ _ E). cbn [snd] in *. rewrite T.
    intros [H|H]; exfalso; (eapply clean; [|exact H]); reflexivity.
Qed.

Lemma X12_witness :
  let issued :=
    trace (snd (deploy_sh (Double.world Double.converged) Double.operator
                  "deploy.sh" ["deploy"])) in
  let req := stack_request Double.operator "123456789012" in
  (In (aws_cloudformation_update_stack req) issued \/
   In (aws_cloudformation_create_stack req) issued) /\
  exists before after backend frontend,
    issued = (before ++ after)%list /\
    existsb is_stack_submission before = false /\
    parameter "BackendRepositoryUri" (req_parameters req) = Some backend /\
    parameter "FrontendRepositoryUri" (req_parameters req) = Some frontend /\
    In (docker_push (backend ++ ":latest")) before /\
    In (docker_push (frontend ++ ":latest")) before.
Proof.
  cbv zeta.
  assert (H : In (aws_cloudformation_update_stack
                    (stack_request Double.operator "123456789012"))
                 (trace (snd (deploy_sh (Double.world Double.converged)
                                Double.operator "deploy.sh" ["deploy"]))) \/
              In (aws_cloudformation_create_stack
                    (stack_request Double.operator "123456789012"))
                 (trace (snd (deploy_sh (Double.world Double.converged)
                                Double.operator "deploy.sh" ["deploy"])))).
  { left. vm_compute. do 15 right. left. reflexivity. }
  split; [exact H|].
  exact (deploy_submits_only_pushed_images (Double.world Double.converged)
           Double.operator "deploy.sh" _ H).
Defined.

(** ** The full deploy: what status 0 stands for *)

Lemma no_rollout_after_rollout w env :
  only_issues not_update_service
    (run_health_checks w env ;;
     get_deployment_info w env ;;
     print_status "Deployment completed successfully!").
Proof.
  unfold run_health_checks, get_deployment_info. auto 100 with sh_issues.
Qed.

(** X13: a full deploy that ends with status 0 has asked for both
    replacements, one right after the other for the same cluster, after a
    stack submission; no other update-service was issued before or after
    them. *)
Theorem completed_deploy_requested_both_rollouts w env argv0 :
  fst (deploy_sh w env argv0 ["deploy"]) = Done tt ->
  exists before after cluster backend frontend,
    trace (snd (deploy_sh w env argv0 ["deploy"])) =
      (before ++
       aws_ecs_update_service cluster backend (AWS_REGION env) ::
       aws_ecs_update_service cluster frontend (AWS_REGION env) :: after)%list /\
    existsb is_stack_submission before = true /\
    existsb is_update_service before = false /\
    existsb is_update_service after = false.
Proof.
  change (deploy_sh w env argv0 ["deploy"]) with (main w env (initial env)).
  rewrite main_after_convergence.
  destruct (no_rollout_through_convergence w env (initial env)) as (converged & T & F).
  cbn [initial trace app] in T. apply forallb_not_existsb in F.
  destruct (stages_through_convergence w env (initial env)) as [[[]|n] t] eqn:E.
  2: { rewrite (bind_exited _ _ _ _ _ E). discriminate. }
  rewrite (bind_done _ _ _ _ _ E). cbn [snd] in T.
  destruct (rollout_trace_shape w env t) as (issued & rest & T1 & R & D).
  cbv zeta in *.
  destruct (deploy_application w env t) as [[[]|n] t1] eqn:E1.
  2: { rewrite (bind_exited _ _ _ _ _ E1). discriminate. }
  rewrite (bind_done _ _ _ _ _ E1). cbn [fst snd] in *.
  rewrite (D eq_refl), app_nil_r in R. subst issued.
  destruct (no_rollout_after_rollout w env t1) as (later & T2 & F2).
  apply forallb_not_existsb in F2.
  intros _. unfold rollout_sequence in T1.
  exists (trace t ++ output_lookups env)%list, later.
  do 3 eexists. split; [|split; [|split]].
  - rewrite T2, T1. rewrite <- !app_assoc. reflexivity.
  - unfold stages_through_convergence in E.
    apply bind_done_inv in E as (? & s0 & _ & E).
    apply bind_done_inv in E as (? & s1 & _ & E).
    apply bind_done_inv in E as (? & s2 & _ & E).
    destruct (convergence_trace_shape w env s2) as (submission & more & S & K & _).
    rewrite E in S. cbn [snd] in S.
    rewrite existsb_app. apply orb_true_iff. left. rewrite S.
    rewrite existsb_app. apply orb_true_iff. right.
    cbn [existsb describe_stack is_stack_submission orb].
    destruct K as [-> | ->]; reflexivity.
  - rewrite existsb_app, T, F. reflexivity.
  - exact F2.
Qed.

Lemma X13_witness :
  let result :=
    deploy_sh (Double.world Double.unhealthy) Double.operator "deploy.sh" ["deploy"] in
  fst result = Done tt /\
  exists before after cluster backend frontend,
    trace (snd result) =
      (before ++
       aws_ecs_update_service cluster backend (AWS_REGION Double.operator) ::
       aws_ecs_update_service cluster frontend (AWS_REGION Double.operator) :: after)%list /\
    existsb is_stack_submission before = true /\
    existsb is_update_service before = false /\
    existsb is_update_service after = false.
Proof.
  cbv zeta.
  assert (H : fst (deploy_sh (Double.world Double.unhealthy) Double.operator
                     "deploy.sh" ["deploy"]) = Done tt) by (vm_compute; reflexivity).
  split; [exact H|].
  exact (completed_deploy_requested_both_rollouts _ _ _ H).
Defined.

(** ** Health answers: two worlds to compare *)

Lemma health_answers_witness :
  same_but_health (Double.world Double.converged) (Double.world Double.unhealthy) /\
  fst (deploy_sh (Double.world Double.converged) Double.operator "deploy.sh" ["health"])
  = fst (deploy_sh (Double.world Double.unhealthy) Double.operator "deploy.sh" ["health"]) /\
  trace (snd (deploy_sh (Double.world Double.converged) Double.operator
                "deploy.sh" ["health"]))
  = trace (snd (deploy_sh (Double.world Double.unhealthy) Double.operator
                  "deploy.sh" ["health"])).
Proof.
  assert (H : same_but_health (Double.world Double.converged)
                (Double.world Double.unhealthy)).
  { split; [reflexivity|]. intros h c Hc. destruct c; try reflexivity; discriminate. }
  split; [exact H|].
  exact (health_answers_do_not_reach_the_exit_status _ _ Double.operator
           "deploy.sh" H ["health"]).
Defined.

(** ** No command is issued again after it failed *)

Section Orderly.

Variable w : World.








(** A stage that runs as a sequence under [set -e]. *)
Lemma orderly_follows checked family (m : Sh unit) sequence :
  follows w checked m sequence ->
  (forall h account c, In c (sequence h account) ->
     family c = true /\ (checked c = false -> tolerated c = true)) ->
  (forall h account, NoDup (filter tolerated (sequence h account))) ->
  orderly w family m.
Proof.
  intros Fm Hin Hd s. destruct (Fm s) as (O & T & _). cbv zeta in O, T.
  set (commands := sequence (trace s) (AWS_ACCOUNT_ID s)) in *.
  exists (fst (until_first_failure w checked (trace s) commands)).
  destruct (until_first_failure_prefix w checked commands (trace s)) as (rest & E & _).
  split; [exact T|]. rewrite O. split.
  - apply until_first_failure_strict. intros c Hc. now apply (Hin _ _ c Hc).
  - assert (D := Hd (trace s) (AWS_ACCOUNT_ID s)). fold commands in D.
    rewrite E, filter_app in D. split; [exact (NoDup_app_remove_r _ _ D)|].
    apply forallb_forall. intros c Hc.
    apply (Hin (trace s) (AWS_ACCOUNT_ID s) c). fold commands. rewrite E.
    apply in_or_app. now left.
Qed.

End Orderly.

(** *** The six stages *)













(** *** The script *)









(** ** The test script *)

Module TestDeployFacts.
Import TestDeploy.

Lemma contains_skip m : forall s t,
  contains m t = true -> contains m (s ++ t) = true.
Proof.
  induction s as [|c s IH]; intros t H; [exact H|].
  simpl append. cbn [contains]. rewrite (IH t H). apply orb_true_r.
Qed.

Lemma contains_join m w : forall ws,
  In w ws -> contains m w = true -> contains m (join ws) = true.
Proof.
  induction ws as [|x ws IH]; intros Hin Hw; [contradiction|].
  destruct ws as [|y ws].
  - destruct Hin as [->|[]]. exact Hw.
  - change (join (x :: y :: ws)) with (x ++ " " ++ join (y :: ws)).
    destruct Hin as [->|Hin].
    + now apply contains_append.
    + apply contains_skip. apply (contains_skip m " "). now apply IH.
Qed.

Lemma key_in_parameter_word m key value :
  contains m key = true -> contains m (parameter_word (key, value)) = true.
Proof.
  intros H. unfold parameter_word. cbn [fst snd].
  apply contains_skip. now apply contains_append.
Qed.

(** The second [aws] function accepts every request deploy.sh writes. *)
Lemma deploy_sh_requests_have_both_parameters env account :
  has_both_repository_parameters (stack_request env account) = true.
Proof.
  unfold has_both_repository_parameters. apply andb_true_iff. split.
  - apply contains_join with
      (w := parameter_word ("BackendRepositoryUri", registry env account ++ "/blog-backend")).
    + unfold create_stack_words, stack_request. cbn. tauto.
    + now apply key_in_parameter_word.
  - apply contains_join with
      (w := parameter_word ("FrontendRepositoryUri", registry env account ++ "/blog-frontend")).
    + unfold create_stack_words, stack_request. cbn. tauto.
    + now apply key_in_parameter_word.
Qed.

(** X16: the check the second [aws] function makes on a create-stack call
    (both repository parameters somewhere on the command line) holds for
    every request deploy.sh writes, whatever the environment and the
    account: the function never answers that parameters are missing. *)
Theorem create_stack_always_names_both_repositories env account h :
  aws_for_infrastructure h (create_request env account)
  = Double.ok ("Stack creation initiated with correct parameters" ++ newline).
Proof.
  unfold create_request, aws_for_infrastructure.
  now rewrite deploy_sh_requests_have_both_parameters.
Qed.

End TestDeployFacts.

Module TestDeployRuns.
Import TestDeploy TestDeployFacts.

(** Runs the script under the functions as far as the machine is not asked. *)
Ltac mock_steps :=
  cbv beta iota zeta delta
    [test_deploy_sh test_build_and_push test_deploy_infrastructure
     source_deploy_sh print_success
     dispatch subcommand main check_prerequisites build_and_push_images
     deploy_infrastructure deploy_application run_health_checks
     get_deployment_info
     or_else pipe run capture capture_all_or_status succeeds_quietly
     succeeds_discarding_stdout issue errexit
     print_status print_warning print_error echo say
     get_AWS_ACCOUNT_ID set_AWS_ACCOUNT_ID bind ret exit
     AWS_ACCOUNT_ID trace terminal fst snd negb orb andb is_empty
     mocked aws_for_build aws_for_infrastructure docker_function cd_function
     marked describes installed respond rc stdout stderr
     Double.ok Double.failed existsb app
     String.eqb Ascii.eqb Bool.eqb Nat.eqb
     nth_error or_default expand initial exported
     DATABASE_PASSWORD env_DATABASE_PASSWORD env_AWS_ACCOUNT_ID
     backend_marker frontend_marker
     describe_stack stack_output];
  repeat match goal with
         | |- context [contains ?m (captured_text ?r)] =>
             let v := eval vm_compute in (contains m (captured_text r)) in
             change (contains m (captured_text r)) with v; cbv beta iota
         end.

(** The same, through the create-stack check of the second [aws] function. *)
Ltac mock_run :=
  mock_steps;
  repeat (rewrite deploy_sh_requests_have_both_parameters; mock_steps).

(** The machine is asked (by [curl]): take its answer apart and go on. *)
Ltac ask_machine answers :=
  match goal with
  | |- context [answers ?h (curl_s_f ?url)] =>
      destruct (answers h (curl_s_f url)) as [[|?] ? ?]; mock_steps
  end.

(** The machine is asked to sleep: its answer is the one the statement
    names. *)
Ltac ask_machine_to_sleep answers slept :=
  match goal with
  | |- context [answers ?h (sleep 120)] =>
      change (answers h (sleep 120)) with slept
  end;
  clearbody slept; destruct slept as [[|?] ? ?].

(** X14: what the first test does on a machine, and that it tests something
    else than it calls.  Sourcing deploy.sh runs a full deploy under the
    functions: the build, an update of the stack, a rollout with empty
    names, the two-minute sleep and two health requests against an address
    without a host.  [sleep] is not replaced by a function: where the
    machine's [sleep 120] fails, the test ends there, with its status,
    inside the sourced deploy.  Where it succeeds the test completes,
    whatever the health requests answer.  A repository is created only in
    the sourced deploy, and only where the marker file was missing when the
    script started; the call of [build_and_push_images] that follows finds
    both markers and creates nothing. *)
Theorem first_test_creates_only_while_sourcing machine tmp outer argv0 :
  let result :=
    test_build_and_push machine tmp outer argv0 (initial (exported outer)) in
  let first_build :=
    build_commands outer mock_token
      (negb (backend_marker tmp)) (negb (frontend_marker tmp)) in
  let slept :=
    respond machine (first_build ++ sourced_deploy_before_sleep outer)%list (sleep 120) in
  if Nat.eqb (rc slept) 0 then
    fst result = Done tt /\
    trace (snd result) =
      (first_build ++ sourced_deploy_after_build outer
       ++ build_commands outer mock_token false false)%list
  else
    fst result = Exited (rc slept) /\
    trace (snd result) =
      (first_build ++ sourced_deploy_before_sleep outer ++ [sleep 120])%list.
Proof.
  intros result first_build slept. subst result first_build.
  destruct machine as [found answers], tmp as [[] []]; mock_steps.
  all: ask_machine_to_sleep answers slept; mock_steps.
  all: repeat ask_machine answers.
  all: split; reflexivity.
Qed.

(** X15: the test script never reaches its end, on any machine, with or
    without the marker files.  Where the machine's [sleep 120] fails, the
    script ends in its first test with the status of the sleep and prints
    no success line.  Where it succeeds, the second test stops while
    sourcing deploy.sh: the full deploy it starts creates the stack, its
    rollout asks for the cluster name, the second [aws] function answers
    every describe-stacks with status 1, and [set -e] ends the script with
    status 1.  The call of [deploy_infrastructure] the test was written for
    is not reached, and the only success line printed is that of the first
    test. *)
Theorem test_script_stops_in_its_second_test machine tmp outer argv0 :
  let result := test_deploy_sh machine tmp outer argv0 in
  let env := exported outer in
  let first_build :=
    build_commands outer mock_token
      (negb (backend_marker tmp)) (negb (frontend_marker tmp)) in
  let slept :=
    respond machine (first_build ++ sourced_deploy_before_sleep outer)%list (sleep 120) in
  if Nat.eqb (rc slept) 0 then
    fst result = Exited 1 /\
    trace (snd result) =
      (first_build
       ++ sourced_deploy_after_build outer
       ++ build_commands outer mock_token false false
       ++ build_commands outer EmptyString false false
       ++ [ describe_stack env;
            create_request env "587210148146";
            wait_create_complete env;
            stack_output env "ECSClusterName" ])%list /\
    filter is_success_line (terminal (snd result)) =
      [Echo "[SUCCESS] Test completed successfully!"]
  else
    fst result = Exited (rc slept) /\
    trace (snd result) =
      (first_build ++ sourced_deploy_before_sleep outer ++ [sleep 120])%list /\
    filter is_success_line (terminal (snd result)) = [].
Proof.
  intros result env first_build slept. subst result env first_build.
  destruct machine as [found answers], tmp as [[] []]; mock_run.
  all: ask_machine_to_sleep answers slept; mock_run.
  all: repeat (ask_machine answers; mock_run).
  all: repeat split; reflexivity.
Qed.

End TestDeployRuns.
